(** * cardano_tx_sanitizer: era export of decoded Cardano transactions

    A shallow embedding of [cardano_tx_sanitizer/transaction_parser.py],
    [cardano_tx_sanitizer/utils.py] and the save path of
    [cardano_tx_sanitizer/gui.py], followed by the properties of the
    specification that can be stated over it.

    Python values are embedded as follows.
    - An attribute that may hold [None] is an [option].
    - A collection attribute holds a built-in [list], a pycardano
      [OrderedSet], a pycardano [NonEmptyOrderedSet], the built-in empty
      [set()] or a mapping (the decoder gives the redeemers of a
      transaction either as a list or as a [RedeemerMap]); the class of
      the object is kept ([Coll]), because the exporter's whole purpose
      is to choose that class.
    - An exception is a value of [exn]; a call that may raise returns
      [Exc].

    pycardano is taken as the library documents it: a dataclass
    constructor stores its keyword arguments as given; [OrderedSet] is a
    [list] subclass whose constructor keeps the first occurrence of every
    element, in order; [NonEmptyOrderedSet] inherits that constructor and
    checks non-emptiness only when validated.  Attributes of
    [TransactionBody] that the exporter never passes are not part of the
    model.

    The ordered sets are modelled twice.  [OrderedSet] and
    [NonEmptyOrderedSet] compare items, which is what the library does
    on items it can serialise to keys of their own; [OrderedSet_keyed]
    and [NonEmptyOrderedSet_keyed] take the key from the library, can
    raise, and merge items with equal keys.  [keyed_export_agrees]
    relates the two exports. *)

From stdpp Require Import base decidable option list strings.
From Stdlib Require Import ZArith.
From Stdlib.Strings Require Import Byte Ascii String.

Local Open Scope string_scope.
Local Open Scope list_scope.

(** ** Exceptions *)

Inductive exn : Type :=
| ValueError (msg : string)
| FileNotFoundError (msg : string)
| JSONDecodeError (msg : string)
| TypeError (msg : string)
| AttributeError (msg : string)
| KeyError (key : string).

(** [str(e)] *)
Definition str_exn (e : exn) : string :=
  match e with
  | ValueError m | FileNotFoundError m | JSONDecodeError m
  | TypeError m | AttributeError m | KeyError m => m
  end.

Inductive Exc (A : Type) : Type :=
| Ok (a : A)
| Raise (e : exn).
Arguments Ok {A} a.
Arguments Raise {A} e.

Definition bind {A B} (c : Exc A) (k : A -> Exc B) : Exc B :=
  match c with
  | Ok a => k a
  | Raise e => Raise e
  end.

(** [try: c  except Exception as e: h e] *)
Definition try_except {A} (c : Exc A) (h : exn -> Exc A) : Exc A :=
  match c with
  | Ok a => Ok a
  | Raise e => h e
  end.

Notation "x <- c ;; k" := (bind c (fun x => k))
  (at level 100, c at next level, right associativity).

(** ** Collections *)

Definition bytes := list byte.

#[global] Instance byte_eq_dec : EqDecision byte := Byte.byte_eq_dec.

(** The class of a collection object together with its elements in
    iteration order.  [OrderedSet] subclasses [list], so the first four
    are falsy exactly when they hold no element.  A mapping ([dict] and
    its subclasses, such as pycardano's [RedeemerMap]) holds entries of
    a key and a value; it is falsy when it has no entry, and iterating
    it ([list(m)], [OrderedSet(m)], [for k in m]) yields its keys only. *)
Inductive Coll (A : Type) : Type :=
| PyList (elems : list A)
| OrderedSetOf (elems : list A)
| NonEmptyOrderedSetOf (elems : list A)
| PySetEmpty
| PyDictOf (entries : list (A * bytes)).
Arguments PyList {A} elems.
Arguments OrderedSetOf {A} elems.
Arguments NonEmptyOrderedSetOf {A} elems.
Arguments PySetEmpty {A}.
Arguments PyDictOf {A} entries.

#[global] Instance Coll_eq_dec {A} `{EqDecision A} : EqDecision (Coll A).
Proof. solve_decision. Defined.

(** Iteration order of a collection. *)
Definition items {A} (c : Coll A) : list A :=
  match c with
  | PyList l | OrderedSetOf l | NonEmptyOrderedSetOf l => l
  | PySetEmpty => []
  | PyDictOf entries => map fst entries
  end.

(** The class of a collection, without its elements. *)
Inductive Repr : Type :=
| RList | ROrderedSet | RNonEmptyOrderedSet | RSet | RDict.

#[global] Instance Repr_eq_dec : EqDecision Repr.
Proof. solve_decision. Defined.

Definition repr_of {A} (c : Coll A) : Repr :=
  match c with
  | PyList _ => RList
  | OrderedSetOf _ => ROrderedSet
  | NonEmptyOrderedSetOf _ => RNonEmptyOrderedSet
  | PySetEmpty => RSet
  | PyDictOf _ => RDict
  end.

(** Python truth value of an attribute: [None] and empty collections are
    falsy. *)
Definition truthy {A} (v : option (Coll A)) : bool :=
  match v with
  | Some c => match items c with [] => false | _ :: _ => true end
  | None => false
  end.

(** [f(v) if v else d] *)
Definition if_truthy {A B} (v : option (Coll A)) (f : Coll A -> B) (d : B) : B :=
  match v with
  | Some c => if truthy (Some c) then f c else d
  | None => d
  end.

(** [list(c)] *)
Definition list_ {A} (c : Coll A) : Coll A := PyList (items c).

Section OrderedSet.
Context {A : Type} `{EqDecision A}.

(** [OrderedSet.append]: an element whose key is already present is
    dropped.  pycardano keys by [str(item)]; the embedding identifies a
    domain object with its printed form, so the key test is equality. *)
Definition append (acc : list A) (item : A) : list A :=
  if decide (item ∈ acc) then acc else acc ++ [item].

(** [OrderedSet.extend]: append every element, first occurrence wins. *)
Fixpoint extend (acc : list A) (its : list A) : list A :=
  match its with
  | [] => acc
  | x :: rest => extend (append acc x) rest
  end.

(** [OrderedSet(iterable)] *)
Definition OrderedSet (c : Coll A) : Coll A :=
  OrderedSetOf (extend [] (items c)).

(** [NonEmptyOrderedSet(iterable)]: the constructor is inherited; the
    class only checks non-emptiness when it is validated or decoded. *)
Definition NonEmptyOrderedSet (c : Coll A) : Coll A :=
  NonEmptyOrderedSetOf (extend [] (items c)).
End OrderedSet.

(** [set()] *)
Definition set_ {A} : Coll A := PySetEmpty.

(** ** The pycardano transaction model

    Only the exporter's view is kept: the attributes it reads and the
    keyword arguments it passes.  Objects it hands on untouched are
    identified by their serialised payload. *)

Record TransactionInput : Type :=
  { transaction_id : bytes; index : Z }.
Record TransactionOutput : Type :=
  { address : bytes; amount : Z; output_extra : bytes }.
Record VerificationKeyHash : Type := { vkh_payload : bytes }.
Record VerificationKeyWitness : Type :=
  { vkey : bytes; signature : bytes }.
Record NativeScript : Type := { native_script_cbor : bytes }.
Record BootstrapWitness : Type := { bootstrap_cbor : bytes }.
Record PlutusScript : Type := { script_bytes : bytes }.
Record PlutusData : Type := { datum_cbor : bytes }.
Record Redeemer : Type :=
  { redeemer_tag : Z; redeemer_index : Z; redeemer_cbor : bytes }.
Record RedeemerKey : Type := { key_tag : Z; key_index : Z }.
(** What iterating the redeemers of a witness set yields: a [Redeemer]
    when they are a list, a [RedeemerKey] when they are a [RedeemerMap]
    (whose values, the data and execution units, are the [bytes] of the
    entry). *)
Inductive RedeemerItem : Type :=
| AsRedeemer (r : Redeemer)
| AsRedeemerKey (k : RedeemerKey).
Record AuxiliaryData : Type := { auxiliary_cbor : bytes }.

Record PoolParams : Type :=
  { operator : bytes;
    vrf_keyhash : bytes;
    pledge : Z;
    cost : Z;
    margin : Z * Z;
    reward_account : bytes;
    pool_owners : option (Coll VerificationKeyHash);
    relays : option (list bytes);
    pool_metadata : option bytes }.

(** [Certificate] is a union of classes; [isinstance(cert,
    PoolRegistration)] is the constructor test. *)
Inductive Certificate : Type :=
| StakeRegistration (stake_credential : bytes)
| StakeDeregistration (stake_credential : bytes)
| StakeDelegation (stake_credential : bytes) (pool_keyhash : bytes)
| PoolRegistration (pool_params : option PoolParams)
| PoolRetirement (pool_keyhash : bytes) (epoch : Z)
| OtherCertificate (certificate_cbor : bytes).

Record TransactionBody : Type :=
  { inputs : option (Coll TransactionInput);
    outputs : list TransactionOutput;
    fee : Z;
    ttl : option Z;
    certificates : option (Coll Certificate);
    withdraws : option bytes;
    update : option bytes;
    auxiliary_data_hash : option bytes;
    validity_start : option Z;
    mint : option bytes;
    script_data_hash : option bytes;
    collateral : option (Coll TransactionInput);
    required_signers : option (Coll VerificationKeyHash);
    network_id : option Z;
    collateral_return : option TransactionOutput;
    total_collateral : option Z;
    reference_inputs : option (Coll TransactionInput) }.

Record TransactionWitnessSet : Type :=
  { vkey_witnesses : option (Coll VerificationKeyWitness);
    native_scripts : option (Coll NativeScript);
    bootstrap_witness : option (Coll BootstrapWitness);
    plutus_v1_script : option (Coll PlutusScript);
    plutus_v2_script : option (Coll PlutusScript);
    plutus_v3_script : option (Coll PlutusScript);
    plutus_data : option (Coll PlutusData);
    redeemer : option (Coll RedeemerItem) }.

Record Transaction : Type :=
  { transaction_body : TransactionBody;
    transaction_witness_set : TransactionWitnessSet;
    auxiliary_data : option AuxiliaryData;
    valid : bool }.

#[global] Instance TransactionInput_eq_dec : EqDecision TransactionInput.
Proof. solve_decision. Defined.
#[global] Instance TransactionOutput_eq_dec : EqDecision TransactionOutput.
Proof. solve_decision. Defined.
#[global] Instance VerificationKeyHash_eq_dec : EqDecision VerificationKeyHash.
Proof. solve_decision. Defined.
#[global] Instance VerificationKeyWitness_eq_dec :
  EqDecision VerificationKeyWitness.
Proof. solve_decision. Defined.
#[global] Instance NativeScript_eq_dec : EqDecision NativeScript.
Proof. solve_decision. Defined.
#[global] Instance BootstrapWitness_eq_dec : EqDecision BootstrapWitness.
Proof. solve_decision. Defined.
#[global] Instance PlutusScript_eq_dec : EqDecision PlutusScript.
Proof. solve_decision. Defined.
#[global] Instance PlutusData_eq_dec : EqDecision PlutusData.
Proof. solve_decision. Defined.
#[global] Instance Redeemer_eq_dec : EqDecision Redeemer.
Proof. solve_decision. Defined.
#[global] Instance RedeemerKey_eq_dec : EqDecision RedeemerKey.
Proof. solve_decision. Defined.
#[global] Instance RedeemerItem_eq_dec : EqDecision RedeemerItem.
Proof. solve_decision. Defined.
#[global] Instance PoolParams_eq_dec : EqDecision PoolParams.
Proof. solve_decision. Defined.
#[global] Instance Certificate_eq_dec : EqDecision Certificate.
Proof. solve_decision. Defined.

(** ** transaction_parser.py: [Era], [CollectionType] *)

Inductive Era : Type := BABBAGE | CONWAY.

Inductive CollectionType : Type := DEFAULT | LIST | SET.

#[global] Instance Era_eq_dec : EqDecision Era.
Proof. solve_decision. Defined.
#[global] Instance CollectionType_eq_dec : EqDecision CollectionType.
Proof. solve_decision. Defined.

(** [collection_type == a or collection_type == b] *)
Definition is_default_or_set (ct : CollectionType) : bool :=
  match ct with DEFAULT | SET => true | LIST => false end.
Definition is_default_or_list (ct : CollectionType) : bool :=
  match ct with DEFAULT | LIST => true | SET => false end.

(** ** transaction_parser.py: [TransactionExporter] *)

(** [TransactionExporter._process_pool_registration_cert].  The argument
    is the [pool_params] attribute of a [PoolRegistration]; the two early
    returns hand back the certificate itself. *)
Definition _process_pool_registration_cert
    (cert_pool_params : option PoolParams) (collection_type : CollectionType)
    : Certificate :=
  let cert := PoolRegistration cert_pool_params in
  match cert_pool_params with
  | None => cert
  | Some pp =>
      if_truthy (pool_owners pp)
        (fun owners =>
           let processed_pool_owners :=
             if is_default_or_set collection_type
             then OrderedSet owners
             else list_ owners in
           let new_pool_params :=
             {| operator := operator pp;
                vrf_keyhash := vrf_keyhash pp;
                pledge := pledge pp;
                cost := cost pp;
                margin := margin pp;
                reward_account := reward_account pp;
                pool_owners := Some processed_pool_owners;
                relays := relays pp;
                pool_metadata := pool_metadata pp |} in
           PoolRegistration (Some new_pool_params))
        cert
  end.

(** The body of the [for cert in certificates] loop of
    [process_certificates]. *)
Definition process_certificate
    (collection_type : CollectionType) (cert : Certificate) : Certificate :=
  match cert with
  | PoolRegistration pp => _process_pool_registration_cert pp collection_type
  | _ => cert
  end.

(** [TransactionExporter.process_certificates]: a falsy argument is
    returned as it is, otherwise a fresh list is filled in order.  The
    [era] argument is not read. *)
Definition process_certificates
    (certs : Coll Certificate) (era : Era) (collection_type : CollectionType)
    : Coll Certificate :=
  if truthy (Some certs)
  then PyList (map (process_certificate collection_type) (items certs))
  else certs.

(** [TransactionExporter._build_babbage_transaction_body] *)
Definition _build_babbage_transaction_body
    (tx_body : TransactionBody) (collection_type : CollectionType)
    : TransactionBody :=
  let '(inputs', collateral', required_signers', reference_inputs') :=
    if is_default_or_set collection_type
    then
      (if_truthy (inputs tx_body) (fun c => Some (OrderedSet c)) None,
       if_truthy (collateral tx_body)
         (fun c => Some (NonEmptyOrderedSet c)) None,
       if_truthy (required_signers tx_body)
         (fun c => Some (NonEmptyOrderedSet c)) None,
       if_truthy (reference_inputs tx_body)
         (fun c => Some (NonEmptyOrderedSet c)) None)
    else
      (if_truthy (inputs tx_body) (fun c => Some (list_ c)) None,
       if_truthy (collateral tx_body) (fun c => Some (list_ c)) None,
       if_truthy (required_signers tx_body) (fun c => Some (list_ c)) None,
       if_truthy (reference_inputs tx_body) (fun c => Some (list_ c)) None) in
  let certificates' :=
    if_truthy (certificates tx_body)
      (fun c =>
         let processed := process_certificates c BABBAGE collection_type in
         if is_default_or_list collection_type
         then Some (list_ processed)
         else Some (NonEmptyOrderedSet processed))
      None in
  {| inputs := inputs';
     outputs := outputs tx_body;
     fee := fee tx_body;
     ttl := ttl tx_body;
     certificates := certificates';
     withdraws := withdraws tx_body;
     update := update tx_body;
     auxiliary_data_hash := auxiliary_data_hash tx_body;
     validity_start := validity_start tx_body;
     mint := mint tx_body;
     script_data_hash := script_data_hash tx_body;
     collateral := collateral';
     required_signers := required_signers';
     network_id := network_id tx_body;
     collateral_return := collateral_return tx_body;
     total_collateral := total_collateral tx_body;
     reference_inputs := reference_inputs' |}.

(** The shared shape of the two witness-set builders: one conversion is
    applied to every truthy attribute, a falsy attribute becomes [None]. *)
Definition witness_set_with
    (conv : forall A, EqDecision A -> Coll A -> Coll A)
    (witness_set : TransactionWitnessSet) : TransactionWitnessSet :=
  {| vkey_witnesses :=
       if_truthy (vkey_witnesses witness_set) (fun c => Some (conv _ _ c)) None;
     native_scripts :=
       if_truthy (native_scripts witness_set) (fun c => Some (conv _ _ c)) None;
     bootstrap_witness :=
       if_truthy (bootstrap_witness witness_set)
         (fun c => Some (conv _ _ c)) None;
     plutus_v1_script :=
       if_truthy (plutus_v1_script witness_set)
         (fun c => Some (conv _ _ c)) None;
     plutus_v2_script :=
       if_truthy (plutus_v2_script witness_set)
         (fun c => Some (conv _ _ c)) None;
     plutus_v3_script :=
       if_truthy (plutus_v3_script witness_set)
         (fun c => Some (conv _ _ c)) None;
     plutus_data :=
       if_truthy (plutus_data witness_set) (fun c => Some (conv _ _ c)) None;
     redeemer :=
       if_truthy (redeemer witness_set) (fun c => Some (conv _ _ c)) None |}.

Definition conv_list : forall A, EqDecision A -> Coll A -> Coll A :=
  fun A _ c => list_ c.
Definition conv_nonempty_set : forall A, EqDecision A -> Coll A -> Coll A :=
  fun A _ c => NonEmptyOrderedSet c.

(** [TransactionExporter._build_babbage_witness_set] *)
Definition _build_babbage_witness_set
    (witness_set : TransactionWitnessSet) (collection_type : CollectionType)
    : TransactionWitnessSet :=
  if is_default_or_list collection_type
  then witness_set_with conv_list witness_set
  else witness_set_with conv_nonempty_set witness_set.

(** [TransactionExporter._export_babbage] *)
Definition _export_babbage
    (transaction : Transaction) (collection_type : CollectionType)
    : Transaction :=
  let body :=
    _build_babbage_transaction_body
      (transaction_body transaction) collection_type in
  let witness_set :=
    _build_babbage_witness_set
      (transaction_witness_set transaction) collection_type in
  {| transaction_body := body;
     transaction_witness_set := witness_set;
     auxiliary_data := auxiliary_data transaction;
     valid := valid transaction |}.

(** [TransactionExporter._build_conway_transaction_body] *)
Definition _build_conway_transaction_body
    (tx_body : TransactionBody) (collection_type : CollectionType)
    : TransactionBody :=
  let '(inputs', collateral', required_signers', reference_inputs') :=
    if is_default_or_set collection_type
    then
      (if_truthy (inputs tx_body) (fun c => Some (OrderedSet c)) (Some set_),
       if_truthy (collateral tx_body)
         (fun c => Some (NonEmptyOrderedSet c)) None,
       if_truthy (required_signers tx_body)
         (fun c => Some (NonEmptyOrderedSet c)) None,
       if_truthy (reference_inputs tx_body)
         (fun c => Some (NonEmptyOrderedSet c)) None)
    else
      (if_truthy (inputs tx_body) (fun c => Some (list_ c)) (Some (PyList [])),
       if_truthy (collateral tx_body) (fun c => Some (list_ c)) None,
       if_truthy (required_signers tx_body) (fun c => Some (list_ c)) None,
       if_truthy (reference_inputs tx_body) (fun c => Some (list_ c)) None) in
  let certificates' :=
    if_truthy (certificates tx_body)
      (fun c =>
         let processed := process_certificates c CONWAY collection_type in
         if is_default_or_set collection_type
         then Some (NonEmptyOrderedSet processed)
         else
           match collection_type with
           | LIST => Some (list_ processed)
           | _ => Some processed
           end)
      None in
  {| inputs := inputs';
     outputs := outputs tx_body;
     fee := fee tx_body;
     ttl := ttl tx_body;
     certificates := certificates';
     withdraws := withdraws tx_body;
     update := update tx_body;
     auxiliary_data_hash := auxiliary_data_hash tx_body;
     validity_start := validity_start tx_body;
     mint := mint tx_body;
     script_data_hash := script_data_hash tx_body;
     collateral := collateral';
     required_signers := required_signers';
     network_id := network_id tx_body;
     collateral_return := collateral_return tx_body;
     total_collateral := total_collateral tx_body;
     reference_inputs := reference_inputs' |}.

(** [TransactionExporter._build_conway_witness_set] *)
Definition _build_conway_witness_set
    (witness_set : TransactionWitnessSet) (collection_type : CollectionType)
    : TransactionWitnessSet :=
  if is_default_or_set collection_type
  then witness_set_with conv_nonempty_set witness_set
  else witness_set_with conv_list witness_set.

(** [TransactionExporter._export_conway] *)
Definition _export_conway
    (transaction : Transaction) (collection_type : CollectionType)
    : Transaction :=
  let body :=
    _build_conway_transaction_body
      (transaction_body transaction) collection_type in
  let witness_set :=
    _build_conway_witness_set
      (transaction_witness_set transaction) collection_type in
  {| transaction_body := body;
     transaction_witness_set := witness_set;
     auxiliary_data := auxiliary_data transaction;
     valid := valid transaction |}.

(** [TransactionExporter.export_to_era].  [Era] has two members, so the
    final [raise ValueError("Unsupported era: ...")] is not reached by a
    value of the enumeration; both remaining paths return. *)
Definition export_to_era
    (transaction : Transaction) (era : Era) (collection_type : CollectionType)
    : Exc Transaction :=
  match era with
  | BABBAGE => Ok (_export_babbage transaction collection_type)
  | CONWAY => Ok (_export_conway transaction collection_type)
  end.

(** ** The export with the keys pycardano uses

    [OrderedSet.append] does not compare an item with the items already
    held: it serialises the item and looks the result up among the keys
    it has seen.  Serialising an ill-formed item raises (a
    [PoolRegistration] whose [pool_params] is [None] cannot be
    serialised), and two items with equal keys count as one.  The
    definitions above take every item to have a key of its own; the
    definitions of this section take the key of an item from the library
    ([ItemKey]) and follow the builders statement by statement, so that
    the first exception raised is the one that leaves the export. *)

Class ItemKey (A : Type) : Type := item_key : A -> Exc bytes.

Section KeyedSets.
Context {A : Type} `{ItemKey A}.

(** [OrderedSet.extend] over [OrderedSet.append]: [acc] is the list so
    far, [seen] the keys of its items. *)
Fixpoint extend_keyed (acc : list A) (seen : list bytes) (its : list A)
    : Exc (list A) :=
  match its with
  | [] => Ok acc
  | x :: rest =>
      match item_key x with
      | Raise e => Raise e
      | Ok k =>
          if decide (k ∈ seen)
          then extend_keyed acc seen rest
          else extend_keyed (acc ++ [x]) (seen ++ [k]) rest
      end
  end.

(** [OrderedSet(iterable)] *)
Definition OrderedSet_keyed (c : Coll A) : Exc (Coll A) :=
  l <- extend_keyed [] [] (items c) ;;
  Ok (OrderedSetOf l).

(** [NonEmptyOrderedSet(iterable)] *)
Definition NonEmptyOrderedSet_keyed (c : Coll A) : Exc (Coll A) :=
  l <- extend_keyed [] [] (items c) ;;
  Ok (NonEmptyOrderedSetOf l).
End KeyedSets.

(** A [for] loop that appends the result of every step to a list and
    stops at the first exception. *)
Fixpoint for_each {A B} (step : A -> Exc B) (l : list A) : Exc (list B) :=
  match l with
  | [] => Ok []
  | x :: rest =>
      y <- step x ;;
      ys <- for_each step rest ;;
      Ok (y :: ys)
  end.

Section KeyedExport.
Context `{ItemKey TransactionInput} `{ItemKey VerificationKeyHash}
  `{ItemKey Certificate} `{ItemKey VerificationKeyWitness}
  `{ItemKey NativeScript} `{ItemKey BootstrapWitness}
  `{ItemKey PlutusScript} `{ItemKey PlutusData} `{ItemKey RedeemerItem}.

(** [TransactionExporter._process_pool_registration_cert] *)
Definition _process_pool_registration_cert_keyed
    (cert_pool_params : option PoolParams) (collection_type : CollectionType)
    : Exc Certificate :=
  let cert := PoolRegistration cert_pool_params in
  match cert_pool_params with
  | None => Ok cert
  | Some pp =>
      if_truthy (pool_owners pp)
        (fun owners =>
           processed_pool_owners <-
             (if is_default_or_set collection_type
              then OrderedSet_keyed owners
              else Ok (list_ owners)) ;;
           let new_pool_params :=
             {| operator := operator pp;
                vrf_keyhash := vrf_keyhash pp;
                pledge := pledge pp;
                cost := cost pp;
                margin := margin pp;
                reward_account := reward_account pp;
                pool_owners := Some processed_pool_owners;
                relays := relays pp;
                pool_metadata := pool_metadata pp |} in
           Ok (PoolRegistration (Some new_pool_params)))
        (Ok cert)
  end.

Definition process_certificate_keyed
    (collection_type : CollectionType) (cert : Certificate) : Exc Certificate :=
  match cert with
  | PoolRegistration pp =>
      _process_pool_registration_cert_keyed pp collection_type
  | _ => Ok cert
  end.

(** [TransactionExporter.process_certificates] *)
Definition process_certificates_keyed
    (certs : Coll Certificate) (era : Era) (collection_type : CollectionType)
    : Exc (Coll Certificate) :=
  if truthy (Some certs)
  then
    processed <-
      for_each (process_certificate_keyed collection_type) (items certs) ;;
    Ok (PyList processed)
  else Ok certs.

(** [set_class(v) if v else d] for a constructor that may raise *)
Definition if_truthy_keyed {A} (v : option (Coll A))
    (f : Coll A -> Exc (Coll A)) (d : option (Coll A))
    : Exc (option (Coll A)) :=
  if_truthy v (fun c => s <- f c ;; Ok (Some s)) (Ok d).

(** [TransactionExporter._build_babbage_transaction_body] *)
Definition _build_babbage_transaction_body_keyed
    (tx_body : TransactionBody) (collection_type : CollectionType)
    : Exc TransactionBody :=
  fields <-
    (if is_default_or_set collection_type
     then
       inputs' <- if_truthy_keyed (inputs tx_body) OrderedSet_keyed None ;;
       collateral' <-
         if_truthy_keyed (collateral tx_body) NonEmptyOrderedSet_keyed None ;;
       required_signers' <-
         if_truthy_keyed (required_signers tx_body)
           NonEmptyOrderedSet_keyed None ;;
       reference_inputs' <-
         if_truthy_keyed (reference_inputs tx_body)
           NonEmptyOrderedSet_keyed None ;;
       Ok (inputs', collateral', required_signers', reference_inputs')
     else
       Ok (if_truthy (inputs tx_body) (fun c => Some (list_ c)) None,
           if_truthy (collateral tx_body) (fun c => Some (list_ c)) None,
           if_truthy (required_signers tx_body)
             (fun c => Some (list_ c)) None,
           if_truthy (reference_inputs tx_body)
             (fun c => Some (list_ c)) None)) ;;
  let '(inputs', collateral', required_signers', reference_inputs') :=
    fields in
  certificates' <-
    if_truthy (certificates tx_body)
      (fun c =>
         processed <- process_certificates_keyed c BABBAGE collection_type ;;
         if is_default_or_list collection_type
         then Ok (Some (list_ processed))
         else s <- NonEmptyOrderedSet_keyed processed ;; Ok (Some s))
      (Ok None) ;;
  Ok {| inputs := inputs';
        outputs := outputs tx_body;
        fee := fee tx_body;
        ttl := ttl tx_body;
        certificates := certificates';
        withdraws := withdraws tx_body;
        update := update tx_body;
        auxiliary_data_hash := auxiliary_data_hash tx_body;
        validity_start := validity_start tx_body;
        mint := mint tx_body;
        script_data_hash := script_data_hash tx_body;
        collateral := collateral';
        required_signers := required_signers';
        network_id := network_id tx_body;
        collateral_return := collateral_return tx_body;
        total_collateral := total_collateral tx_body;
        reference_inputs := reference_inputs' |}.

(** The shared shape of the two witness-set builders, attribute after
    attribute in the order of the source. *)
Definition witness_set_with_keyed
    (conv : forall A, ItemKey A -> Coll A -> Exc (Coll A))
    (witness_set : TransactionWitnessSet) : Exc TransactionWitnessSet :=
  vkey_witnesses' <-
    if_truthy_keyed (vkey_witnesses witness_set) (conv _ _) None ;;
  native_scripts' <-
    if_truthy_keyed (native_scripts witness_set) (conv _ _) None ;;
  bootstrap_witness' <-
    if_truthy_keyed (bootstrap_witness witness_set) (conv _ _) None ;;
  plutus_v1_script' <-
    if_truthy_keyed (plutus_v1_script witness_set) (conv _ _) None ;;
  plutus_v2_script' <-
    if_truthy_keyed (plutus_v2_script witness_set) (conv _ _) None ;;
  plutus_v3_script' <-
    if_truthy_keyed (plutus_v3_script witness_set) (conv _ _) None ;;
  plutus_data' <-
    if_truthy_keyed (plutus_data witness_set) (conv _ _) None ;;
  redeemer' <- if_truthy_keyed (redeemer witness_set) (conv _ _) None ;;
  Ok {| vkey_witnesses := vkey_witnesses';
        native_scripts := native_scripts';
        bootstrap_witness := bootstrap_witness';
        plutus_v1_script := plutus_v1_script';
        plutus_v2_script := plutus_v2_script';
        plutus_v3_script := plutus_v3_script';
        plutus_data := plutus_data';
        redeemer := redeemer' |}.

Definition conv_list_keyed : forall A, ItemKey A -> Coll A -> Exc (Coll A) :=
  fun A _ c => Ok (list_ c).
Definition conv_nonempty_set_keyed
    : forall A, ItemKey A -> Coll A -> Exc (Coll A) :=
  fun A _ c => NonEmptyOrderedSet_keyed c.

(** [TransactionExporter._build_babbage_witness_set] *)
Definition _build_babbage_witness_set_keyed
    (witness_set : TransactionWitnessSet) (collection_type : CollectionType)
    : Exc TransactionWitnessSet :=
  if is_default_or_list collection_type
  then witness_set_with_keyed conv_list_keyed witness_set
  else witness_set_with_keyed conv_nonempty_set_keyed witness_set.

(** [TransactionExporter._export_babbage] *)
Definition _export_babbage_keyed
    (transaction : Transaction) (collection_type : CollectionType)
    : Exc Transaction :=
  body <-
    _build_babbage_transaction_body_keyed
      (transaction_body transaction) collection_type ;;
  witness_set <-
    _build_babbage_witness_set_keyed
      (transaction_witness_set transaction) collection_type ;;
  Ok {| transaction_body := body;
        transaction_witness_set := witness_set;
        auxiliary_data := auxiliary_data transaction;
        valid := valid transaction |}.

(** [TransactionExporter._build_conway_transaction_body] *)
Definition _build_conway_transaction_body_keyed
    (tx_body : TransactionBody) (collection_type : CollectionType)
    : Exc TransactionBody :=
  fields <-
    (if is_default_or_set collection_type
     then
       inputs' <-
         if_truthy_keyed (inputs tx_body) OrderedSet_keyed (Some set_) ;;
       collateral' <-
         if_truthy_keyed (collateral tx_body) NonEmptyOrderedSet_keyed None ;;
       required_signers' <-
         if_truthy_keyed (required_signers tx_body)
           NonEmptyOrderedSet_keyed None ;;
       reference_inputs' <-
         if_truthy_keyed (reference_inputs tx_body)
           NonEmptyOrderedSet_keyed None ;;
       Ok (inputs', collateral', required_signers', reference_inputs')
     else
       Ok (if_truthy (inputs tx_body)
             (fun c => Some (list_ c)) (Some (PyList [])),
           if_truthy (collateral tx_body) (fun c => Some (list_ c)) None,
           if_truthy (required_signers tx_body)
             (fun c => Some (list_ c)) None,
           if_truthy (reference_inputs tx_body)
             (fun c => Some (list_ c)) None)) ;;
  let '(inputs', collateral', required_signers', reference_inputs') :=
    fields in
  certificates' <-
    if_truthy (certificates tx_body)
      (fun c =>
         processed <- process_certificates_keyed c CONWAY collection_type ;;
         if is_default_or_set collection_type
         then s <- NonEmptyOrderedSet_keyed processed ;; Ok (Some s)
         else
           match collection_type with
           | LIST => Ok (Some (list_ processed))
           | _ => Ok (Some processed)
           end)
      (Ok None) ;;
  Ok {| inputs := inputs';
        outputs := outputs tx_body;
        fee := fee tx_body;
        ttl := ttl tx_body;
        certificates := certificates';
        withdraws := withdraws tx_body;
        update := update tx_body;
        auxiliary_data_hash := auxiliary_data_hash tx_body;
        validity_start := validity_start tx_body;
        mint := mint tx_body;
        script_data_hash := script_data_hash tx_body;
        collateral := collateral';
        required_signers := required_signers';
        network_id := network_id tx_body;
        collateral_return := collateral_return tx_body;
        total_collateral := total_collateral tx_body;
        reference_inputs := reference_inputs' |}.

(** [TransactionExporter._build_conway_witness_set] *)
Definition _build_conway_witness_set_keyed
    (witness_set : TransactionWitnessSet) (collection_type : CollectionType)
    : Exc TransactionWitnessSet :=
  if is_default_or_set collection_type
  then witness_set_with_keyed conv_nonempty_set_keyed witness_set
  else witness_set_with_keyed conv_list_keyed witness_set.

(** [TransactionExporter._export_conway] *)
Definition _export_conway_keyed
    (transaction : Transaction) (collection_type : CollectionType)
    : Exc Transaction :=
  body <-
    _build_conway_transaction_body_keyed
      (transaction_body transaction) collection_type ;;
  witness_set <-
    _build_conway_witness_set_keyed
      (transaction_witness_set transaction) collection_type ;;
  Ok {| transaction_body := body;
        transaction_witness_set := witness_set;
        auxiliary_data := auxiliary_data transaction;
        valid := valid transaction |}.

(** [TransactionExporter.export_to_era] *)
Definition export_to_era_keyed
    (transaction : Transaction) (era : Era) (collection_type : CollectionType)
    : Exc Transaction :=
  match era with
  | BABBAGE => _export_babbage_keyed transaction collection_type
  | CONWAY => _export_conway_keyed transaction collection_type
  end.
End KeyedExport.

(** ** Values read from a JSON file *)

#[warnings="-register-all"] Inductive JSON : Type :=
| JNull
| JBool (b : bool)
| JNumber (n : Z)
| JString (s : string)
| JArray (elements : list JSON)
| JObject (members : list (string * JSON)).

(** [d[key]] on a [dict] *)
Fixpoint dict_get (members : list (string * JSON)) (key : string)
    : option JSON :=
  match members with
  | [] => None
  | (k, v) :: rest => if String.eqb k key then Some v else dict_get rest key
  end.

(** [key == v] for a [str] key *)
Definition eq_str (key : string) (v : JSON) : bool :=
  match v with
  | JString s => String.eqb key s
  | _ => false
  end.

(** [key in data]: key lookup on a [dict], element search on a [list],
    substring search on a [str], [TypeError] on anything else. *)
Definition py_in (key : string) (data : JSON) : Exc bool :=
  match data with
  | JObject members =>
      Ok (match dict_get members key with Some _ => true | None => false end)
  | JArray elements => Ok (existsb (eq_str key) elements)
  | JString s =>
      Ok (match String.index 0 key s with Some _ => true | None => false end)
  | JNull | JBool _ | JNumber _ =>
      Raise (TypeError "argument is not iterable")
  end.

(** [data[key]] for a [str] key *)
Definition py_getitem (data : JSON) (key : string) : Exc JSON :=
  match data with
  | JObject members =>
      match dict_get members key with
      | Some v => Ok v
      | None => Raise (KeyError key)
      end
  | JArray _ => Raise (TypeError "list indices must be integers or slices")
  | JString _ => Raise (TypeError "string indices must be integers")
  | JNull | JBool _ | JNumber _ =>
      Raise (TypeError "object is not subscriptable")
  end.

(** ** transaction_parser.py: [TransactionData], [TransactionParser] *)

Record TransactionData : Type :=
  { cbor_hex : JSON;
    transaction : Transaction }.

Record TransactionParser : Type :=
  { transaction_data : option TransactionData }.

(** [TransactionParser.__init__] *)
Definition TransactionParser_init : TransactionParser :=
  {| transaction_data := None |}.

(** Methods of [TransactionParser] read and assign [self]: a computation
    takes the object and returns its result or exception together with
    the object as the call left it.  An assignment made before a [raise]
    stays made. *)
Definition Method (A : Type) : Type :=
  TransactionParser -> Exc A * TransactionParser.

Definition m_ret {A} (a : A) : Method A := fun self => (Ok a, self).
Definition m_raise {A} (e : exn) : Method A := fun self => (Raise e, self).
Definition m_lift {A} (c : Exc A) : Method A := fun self => (c, self).
Definition m_bind {A B} (c : Method A) (k : A -> Method B) : Method B :=
  fun self =>
    match c self with
    | (Ok a, self') => k a self'
    | (Raise e, self') => (Raise e, self')
    end.
Definition m_try {A} (c : Method A) (h : exn -> Method A) : Method A :=
  fun self =>
    match c self with
    | (Ok a, self') => (Ok a, self')
    | (Raise e, self') => h e self'
    end.
(** [self.transaction_data = td] *)
Definition set_transaction_data (td : TransactionData) : Method unit :=
  fun _ => (Ok tt, {| transaction_data := Some td |}).

Notation "x <~ c ; k" := (m_bind c (fun x => k))
  (at level 100, c at next level, right associativity).

Section Environment.
(** What the interpreter, the file system and the libraries provide. *)

(** [fpath.exists() and fpath.is_file()] *)
Variable is_file : string -> bool.
(** [open(fpath, encoding="utf-8")] followed by reading it all *)
Variable read_text : string -> Exc string.
(** [json.loads] *)
Variable json_loads : string -> Exc JSON.
(** [bytes.fromhex] on a [str] *)
Variable fromhex : string -> Exc bytes.
(** [Transaction.from_cbor] *)
Variable from_cbor : bytes -> Exc Transaction.

(** utils.py: [check_file_exists].  A path is modelled by its normal
    form, the text that [Path(p).as_posix()] gives; for a path written
    otherwise the message quotes that normal form, not the spelling. *)
Definition check_file_exists (fpath : string) : Exc unit :=
  if negb (is_file fpath)
  then Raise (FileNotFoundError
                ("[Errno 2] No such file or directory: '" +:+ fpath +:+ "'"))
  else Ok tt.

(** utils.py: [load_json_file] *)
Definition load_json_file (fpath : string) : Exc JSON :=
  _ <- check_file_exists fpath ;;
  text <- read_text fpath ;;
  json_loads text.

(** [bytes.fromhex(v)] for an arbitrary value *)
Definition bytes_fromhex (v : JSON) : Exc bytes :=
  match v with
  | JString s => fromhex s
  | _ => Raise (TypeError "fromhex() argument must be str")
  end.

(** [TransactionData._parse_transaction] *)
Definition _parse_transaction (cbor_hex : JSON) : Exc Transaction :=
  try_except
    (cbor_bytes <- bytes_fromhex cbor_hex ;;
     from_cbor cbor_bytes)
    (fun e =>
       Raise (ValueError
                ("Invalid CBOR hex or transaction format: " +:+ str_exn e))).

(** [TransactionData.__init__] *)
Definition TransactionData_init (cbor_hex : JSON) : Exc TransactionData :=
  tx <- _parse_transaction cbor_hex ;;
  Ok {| cbor_hex := cbor_hex; transaction := tx |}.

(** [TransactionParser.parse_from_json] *)
Definition parse_from_json (json_file_path : string)
    : Method TransactionData :=
  m_try
    (data <~ m_lift (load_json_file json_file_path) ;
     present <~ m_lift (py_in "cborHex" data) ;
     if negb present
     then m_raise (ValueError "JSON file must contain 'cborHex' field")
     else
       cbor_hex <~ m_lift (py_getitem data "cborHex") ;
       td <~ m_lift (TransactionData_init cbor_hex) ;
       _ <~ set_transaction_data td ;
       m_ret td)
    (fun e =>
       m_raise (ValueError ("Failed to parse JSON file: " +:+ str_exn e))).

(** [TransactionParser.parse_from_cbor_hex] *)
Definition parse_from_cbor_hex (cbor_hex : string)
    : Method TransactionData :=
  td <~ m_lift (TransactionData_init (JString cbor_hex)) ;
  _ <~ set_transaction_data td ;
  m_ret td.
End Environment.

(** ** gui.py: [MainWindow.save_export_to_file] *)

(** [str.lower] and [str.capitalize] on ASCII letters *)
Definition ascii_lower (c : ascii) : ascii :=
  let n := nat_of_ascii c in
  if Nat.leb 65 n && Nat.leb n 90 then ascii_of_nat (n + 32) else c.
Definition ascii_upper (c : ascii) : ascii :=
  let n := nat_of_ascii c in
  if Nat.leb 97 n && Nat.leb n 122 then ascii_of_nat (n - 32) else c.
Fixpoint lower (s : string) : string :=
  match s with
  | EmptyString => EmptyString
  | String c rest => String (ascii_lower c) (lower rest)
  end.
Definition capitalize (s : string) : string :=
  match s with
  | EmptyString => EmptyString
  | String c rest => String (ascii_upper c) (lower rest)
  end.

(** [era.name] *)
Definition Era_name (era : Era) : string :=
  match era with
  | BABBAGE => "BABBAGE"
  | CONWAY => "CONWAY"
  end.

(** The nested function [is_empty] of [save_export_to_file] *)
Definition is_empty (witness_set : TransactionWitnessSet) : bool :=
  negb (truthy (vkey_witnesses witness_set))
  && negb (truthy (native_scripts witness_set))
  && negb (truthy (bootstrap_witness witness_set))
  && negb (truthy (plutus_v1_script witness_set))
  && negb (truthy (plutus_data witness_set))
  && negb (truthy (redeemer witness_set))
  && negb (truthy (plutus_v2_script witness_set))
  && negb (truthy (plutus_v3_script witness_set)).

(** The part of the window the save path reads. *)
Record MainWindow : Type :=
  { parser : TransactionParser;
    window_transaction_data : option TransactionData;
    export_view : string;
    era_combo : string;
    output_format_combo : string }.

(** What the save path does to the outside, in order. *)
Inductive GuiEvent : Type :=
| MessageWarning (title text : string)
| MessageInformation (title text : string)
| MessageCritical (title text : string)
| DumpJsonFile (fpath : string) (data : list (string * string)).

(** [{"type": ..., "description": ..., "cborHex": ...}]: a [dict] literal
    keeps its keys in the order written. *)
Definition tx_json_of (tx_status : string) (era : Era) (hex : string)
    : list (string * string) :=
  [ ("type", tx_status +:+ " Tx " +:+ capitalize (Era_name era) +:+ "Era");
    ("description", "Generated by Cardano Transaction Sanitizer");
    ("cborHex", hex) ].

Section SavePath.
(** [QFileDialog.getSaveFileName]: the chosen path for a suggested name,
    empty when the dialog is cancelled. *)
Variable getSaveFileName : string -> string.
(** [Transaction.to_cbor_hex] *)
Variable to_cbor_hex : Transaction -> Exc string.
(** utils.py [dump_json_file]: [json.dumps] and the write, which may fail *)
Variable dump_json_file : string -> list (string * string) -> Exc unit.

(** The [try] block of [save_export_to_file]: the events it caused and
    how it ended. *)
Definition save_attempt (self : MainWindow) (file_path : string)
    : list GuiEvent * Exc unit :=
  match window_transaction_data self with
  | None =>
      ([], Raise (AttributeError
                    "'NoneType' object has no attribute 'transaction'"))
  | Some td =>
      let transaction := transaction td in
      let era_text := era_combo self in
      let era := if String.eqb era_text "Babbage Era" then BABBAGE else CONWAY in
      let tx_status :=
        if is_empty (transaction_witness_set transaction)
        then "Unwitnessed" else "Signed" in
      match to_cbor_hex transaction with
      | Raise e => ([], Raise e)
      | Ok hex =>
          let tx_json := tx_json_of tx_status era hex in
          match dump_json_file file_path tx_json with
          | Raise e => ([DumpJsonFile file_path tx_json], Raise e)
          | Ok _ =>
              ([DumpJsonFile file_path tx_json;
                MessageInformation "Success"
                  ("Export saved to " +:+ file_path)],
               Ok tt)
          end
      end
  end.

(** [MainWindow.save_export_to_file] *)
Definition save_export_to_file (self : MainWindow) : list GuiEvent :=
  if String.eqb (export_view self) ""
  then [MessageWarning "Warning" "No export data to save!"]
  else
    let output_format := lower (output_format_combo self) in
    let extension := if String.eqb output_format "json" then "json" else "txt" in
    let file_path := getSaveFileName ("exported_transaction." +:+ extension) in
    if String.eqb file_path ""
    then []
    else
      match save_attempt self file_path with
      | (events, Ok _) => events
      | (events, Raise e) =>
          events ++ [MessageCritical "Error"
                       ("Failed to save export: " +:+ str_exn e)]
      end.
End SavePath.

(** ** transaction_parser.py: the export formats *)

(** [bytes.hex()]: two lowercase hexadecimal digits for every byte *)
Definition hex_digits : string := "0123456789abcdef".
Definition hex_digit (n : nat) : ascii :=
  match String.get n hex_digits with
  | Some c => c
  | None => "f"%char
  end.
Definition byte_hex (b : byte) : string :=
  let n := Byte.to_nat b in
  String (hex_digit (n / 16)) (String (hex_digit (n mod 16)) EmptyString).
Fixpoint bytes_hex (bs : bytes) : string :=
  match bs with
  | [] => EmptyString
  | b :: rest => byte_hex b +:+ bytes_hex rest
  end.

(** What [export_transaction] returns: a [str] or [bytes]. *)
Inductive Exported : Type :=
| ExportedStr (s : string)
| ExportedBytes (b : bytes).

Section ExportFormats.
(** [str(transaction)] *)
Variable str_transaction : Transaction -> Exc string.
(** [Transaction.to_cbor] *)
Variable to_cbor : Transaction -> Exc bytes.

(** [TransactionExporter.export_to_json]; the exporter object is the
    transaction it was built with, [indent] is not read. *)
Definition export_to_json (self : Transaction) (era : Era)
    (collection_type : CollectionType) : Exc string :=
  transaction <- export_to_era self era collection_type ;;
  str_transaction transaction.

(** [TransactionExporter.export_to_cbor] *)
Definition export_to_cbor (self : Transaction) (era : Era)
    (collection_type : CollectionType) : Exc bytes :=
  transaction <- export_to_era self era collection_type ;;
  to_cbor transaction.

(** [TransactionExporter.export_to_hex] *)
Definition export_to_hex (self : Transaction) (era : Era)
    (collection_type : CollectionType) : Exc string :=
  cbor_bytes <- export_to_cbor self era collection_type ;;
  Ok (bytes_hex cbor_bytes).

(** [TransactionParser.get_exporter] *)
Definition get_exporter : Method Transaction :=
  fun self =>
    match transaction_data self with
    | None =>
        (Raise (ValueError
                  "No transaction data to export. Parse a transaction first."),
         self)
    | Some td => (Ok (transaction td), self)
    end.

(** [TransactionParser.export_transaction] *)
Definition export_transaction (era : Era) (collection_type : CollectionType)
    (output_format : string) : Method Exported :=
  exporter <~ get_exporter ;
  if String.eqb (lower output_format) "json"
  then s <~ m_lift (export_to_json exporter era collection_type) ;
       m_ret (ExportedStr s)
  else if String.eqb (lower output_format) "cbor"
  then b <~ m_lift (export_to_cbor exporter era collection_type) ;
       m_ret (ExportedBytes b)
  else if String.eqb (lower output_format) "hex"
  then s <~ m_lift (export_to_hex exporter era collection_type) ;
       m_ret (ExportedStr s)
  else m_raise (ValueError ("Unsupported output format: " +:+ output_format)).
End ExportFormats.

(** ** gui.py: loading and exporting from the window *)

Fixpoint upper (s : string) : string :=
  match s with
  | EmptyString => EmptyString
  | String c rest => String (ascii_upper c) (upper rest)
  end.

(** [CollectionType[name]]: lookup of a member by its name; [str] of the
    [KeyError] is the quoted name. *)
Definition CollectionType_by_name (name : string) : Exc CollectionType :=
  if String.eqb name "DEFAULT" then Ok DEFAULT
  else if String.eqb name "LIST" then Ok LIST
  else if String.eqb name "SET" then Ok SET
  else Raise (KeyError ("'" +:+ name +:+ "'")).

(** The window: what the save path reads ([MainWindow]) and the widgets
    the other handlers read and set. *)
Record Window : Type :=
  { core : MainWindow;
    collection_combo : string;
    file_label : string;
    view_button : bool;
    export_button : bool;
    save_button : bool;
    transaction_view : string }.

(** [MainWindow.__init__]: nothing loaded, the three action buttons
    disabled, the first item of every combo box selected. *)
Definition Window_init : Window :=
  {| core :=
       {| parser := TransactionParser_init;
          window_transaction_data := None;
          export_view := "Export a transaction to see the output...";
          era_combo := "Babbage Era";
          output_format_combo := "JSON" |};
     collection_combo := "Default";
     file_label := "No file selected";
     view_button := false;
     export_button := false;
     save_button := false;
     transaction_view :=
       "Load a JSON file to view the parsed transaction..." |}.

Section WindowHandlers.
Variable is_file : string -> bool.
Variable read_text : string -> Exc string.
Variable json_loads : string -> Exc JSON.
Variable fromhex : string -> Exc bytes.
Variable from_cbor : bytes -> Exc Transaction.
Variable str_transaction : Transaction -> Exc string.
Variable to_cbor : Transaction -> Exc bytes.
(** [str(b)] for a [bytes] object *)
Variable str_bytes : bytes -> string.

(** [MainWindow.view_transaction] *)
Definition view_transaction (self : Window) : Window * list GuiEvent :=
  match window_transaction_data (core self) with
  | None => (self, [])
  | Some td =>
      match str_transaction (transaction td) with
      | Ok text =>
          ({| core := core self;
              collection_combo := collection_combo self;
              file_label := file_label self;
              view_button := view_button self;
              export_button := export_button self;
              save_button := save_button self;
              transaction_view := text |},
           [])
      | Raise e =>
          (self,
           [MessageCritical "Error"
              ("Failed to display transaction: " +:+ str_exn e)])
      end
  end.

(** [MainWindow.parse_json_file] *)
Definition parse_json_file (self : Window) (file_path : string)
    : Window * list GuiEvent :=
  match parse_from_json is_file read_text json_loads fromhex from_cbor
          file_path (parser (core self)) with
  | (Ok td, parser') =>
      let loaded :=
        {| core :=
             {| parser := parser';
                window_transaction_data := Some td;
                export_view := export_view (core self);
                era_combo := era_combo (core self);
                output_format_combo := output_format_combo (core self) |};
           collection_combo := collection_combo self;
           file_label := "File: " +:+ file_path;
           view_button := true;
           export_button := true;
           save_button := save_button self;
           transaction_view := transaction_view self |} in
      let '(viewed, events) := view_transaction loaded in
      (viewed,
       MessageInformation "Success" "Transaction parsed successfully!"
       :: events)
  | (Raise e, parser') =>
      ({| core :=
            {| parser := parser';
               window_transaction_data := window_transaction_data (core self);
               export_view := export_view (core self);
               era_combo := era_combo (core self);
               output_format_combo := output_format_combo (core self) |};
          collection_combo := collection_combo self;
          file_label := "No file selected";
          view_button := false;
          export_button := false;
          save_button := false;
          transaction_view := transaction_view self |},
       [MessageCritical "Error"
          ("Failed to parse JSON file: " +:+ str_exn e)])
  end.

(** [str(exported_data)] *)
Definition str_exported (x : Exported) : string :=
  match x with
  | ExportedStr s => s
  | ExportedBytes b => str_bytes b
  end.

(** The [try] block of [MainWindow.export_transaction] up to the call
    of the parser: the selected options, then the export. *)
Definition window_export_attempt (self : Window)
    : Exc Exported * TransactionParser :=
  let era_text := era_combo (core self) in
  let era := if String.eqb era_text "Babbage Era" then BABBAGE else CONWAY in
  let collection_text := collection_combo self in
  match CollectionType_by_name (upper collection_text) with
  | Raise e => (Raise e, parser (core self))
  | Ok collection_type =>
      let output_format := lower (output_format_combo (core self)) in
      if String.eqb output_format "json"
      then export_transaction str_transaction to_cbor era collection_type
             "json" (parser (core self))
      else export_transaction str_transaction to_cbor era collection_type
             "hex" (parser (core self))
  end.

(** [MainWindow.export_transaction] *)
Definition window_export_transaction (self : Window)
    : Window * list GuiEvent :=
  match window_transaction_data (core self) with
  | None => (self, [MessageWarning "Warning" "No transaction data to export!"])
  | Some _ =>
      match window_export_attempt self with
      | (Ok exported_data, parser') =>
          ({| core :=
                {| parser := parser';
                   window_transaction_data :=
                     window_transaction_data (core self);
                   export_view := str_exported exported_data;
                   era_combo := era_combo (core self);
                   output_format_combo := output_format_combo (core self) |};
              collection_combo := collection_combo self;
              file_label := file_label self;
              view_button := view_button self;
              export_button := export_button self;
              save_button := true;
              transaction_view := transaction_view self |},
           [MessageInformation "Success"
              ("Transaction exported as " +:+ era_combo (core self)
               +:+ " with " +:+ collection_combo self +:+ " collections!")])
      | (Raise e, parser') =>
          ({| core :=
                {| parser := parser';
                   window_transaction_data :=
                     window_transaction_data (core self);
                   export_view := export_view (core self);
                   era_combo := era_combo (core self);
                   output_format_combo := output_format_combo (core self) |};
              collection_combo := collection_combo self;
              file_label := file_label self;
              view_button := view_button self;
              export_button := export_button self;
              save_button := save_button self;
              transaction_view := transaction_view self |},
           [MessageCritical "Error"
              ("Failed to export transaction: " +:+ str_exn e)])
      end
  end.
End WindowHandlers.

(** ** Vocabulary of the properties: the policy-dependent attributes *)

Inductive FieldId : Type :=
| f_inputs | f_certificates | f_collateral | f_required_signers
| f_reference_inputs
| f_vkey_witnesses | f_native_scripts | f_bootstrap_witness
| f_plutus_v1_script | f_plutus_v2_script | f_plutus_v3_script
| f_plutus_data | f_redeemer.

#[global] Instance FieldId_eq_dec : EqDecision FieldId.
Proof. solve_decision. Defined.

Definition field_type (f : FieldId) : Type :=
  match f with
  | f_inputs | f_collateral | f_reference_inputs => TransactionInput
  | f_certificates => Certificate
  | f_required_signers => VerificationKeyHash
  | f_vkey_witnesses => VerificationKeyWitness
  | f_native_scripts => NativeScript
  | f_bootstrap_witness => BootstrapWitness
  | f_plutus_v1_script | f_plutus_v2_script | f_plutus_v3_script =>
      PlutusScript
  | f_plutus_data => PlutusData
  | f_redeemer => RedeemerItem
  end.

(** The attribute of a transaction named by a field identifier. *)
Definition get_field (f : FieldId) (tx : Transaction)
    : option (Coll (field_type f)) :=
  let b := transaction_body tx in
  let w := transaction_witness_set tx in
  match f with
  | f_inputs => inputs b
  | f_certificates => certificates b
  | f_collateral => collateral b
  | f_required_signers => required_signers b
  | f_reference_inputs => reference_inputs b
  | f_vkey_witnesses => vkey_witnesses w
  | f_native_scripts => native_scripts w
  | f_bootstrap_witness => bootstrap_witness w
  | f_plutus_v1_script => plutus_v1_script w
  | f_plutus_v2_script => plutus_v2_script w
  | f_plutus_v3_script => plutus_v3_script w
  | f_plutus_data => plutus_data w
  | f_redeemer => redeemer w
  end.

#[global] Instance field_type_eq_dec (f : FieldId) : EqDecision (field_type f).
Proof. destruct f; simpl; apply _. Defined.

(** The class of an attribute, [None] when the attribute is [None]. *)
Definition repr_of_field {A} (v : option (Coll A)) : option Repr :=
  option_map repr_of v.

(** What the export does to the elements of an attribute before the
    collection is rebuilt: certificates are processed, anything else is
    taken as it is. *)
Definition exported_items (ct : CollectionType) (f : FieldId)
    : list (field_type f) -> list (field_type f) :=
  match f with
  | f_certificates => map (process_certificate ct)
  | _ => fun l => l
  end.

(** The pool-owners attribute of a certificate, when it has one. *)
Definition owners_of (cert : Certificate)
    : option (option (Coll VerificationKeyHash)) :=
  match cert with
  | PoolRegistration (Some pp) => Some (pool_owners pp)
  | _ => None
  end.

(** The transaction [export_to_era] returns (see [export_to_era_returns]). *)
Definition exported (tx : Transaction) (era : Era) (ct : CollectionType)
    : Transaction :=
  match era with
  | BABBAGE => _export_babbage tx ct
  | CONWAY => _export_conway tx ct
  end.

(** The class the exporter gives a truthy attribute, tabulated from the
    four builders; [export_field_truthy] proves that the builders follow
    the table. *)
Definition class_chosen (era : Era) (ct : CollectionType) (f : FieldId)
    : Repr :=
  match f with
  | f_inputs =>
      if is_default_or_set ct then ROrderedSet else RList
  | f_collateral | f_required_signers | f_reference_inputs =>
      if is_default_or_set ct then RNonEmptyOrderedSet else RList
  | _ =>
      match era with
      | BABBAGE =>
          if is_default_or_list ct then RList else RNonEmptyOrderedSet
      | CONWAY =>
          if is_default_or_set ct then RNonEmptyOrderedSet else RList
      end
  end.

(** A collection of a given class holding the given elements; the two
    ordered sets drop repeated elements as their constructor does.  The
    exporter never builds a mapping ([class_chosen] is never [RDict]). *)
Definition build {A} `{EqDecision A} (r : Repr) (l : list A) : Coll A :=
  match r with
  | RList | RDict => PyList l
  | ROrderedSet => OrderedSetOf (extend [] l)
  | RNonEmptyOrderedSet => NonEmptyOrderedSetOf (extend [] l)
  | RSet => PySetEmpty
  end.

(** The attributes of the witness set among the field identifiers. *)
Definition is_witness_field (f : FieldId) : bool :=
  match f with
  | f_inputs | f_certificates | f_collateral | f_required_signers
  | f_reference_inputs => false
  | _ => true
  end.

(** The elements of an attribute; [None] has none. *)
Definition field_items (f : FieldId) (tx : Transaction)
    : list (field_type f) :=
  match get_field f tx with
  | Some c => items c
  | None => []
  end.

(** Reading back what [bytes_hex] writes. *)
Fixpoint position_from (i : nat) (c : ascii) (s : string) : option nat :=
  match s with
  | EmptyString => None
  | String d rest =>
      if Ascii.eqb c d then Some i else position_from (S i) c rest
  end.
Definition hex_value (c : ascii) : option nat :=
  position_from 0 c hex_digits.
Fixpoint unhex (s : string) : option bytes :=
  match s with
  | EmptyString => Some []
  | String c1 (String c2 rest) =>
      match hex_value c1, hex_value c2, unhex rest with
      | Some h, Some l, Some bs =>
          option_map (fun b => b :: bs) (Byte.of_nat (16 * h + l))
      | _, _, _ => None
      end
  | String _ EmptyString => None
  end.

(** The window and its parser hold the same transaction data. *)
Definition window_in_sync (w : Window) : Prop :=
  window_transaction_data (core w) = transaction_data (parser (core w)).

(** The formats [export_transaction] knows, in lower case. *)
Definition supported_formats : list string := ["json"; "cbor"; "hex"].

(** The elements of an attribute that may be [None]. *)
Definition items_of {A} (v : option (Coll A)) : list A :=
  match v with Some c => items c | None => [] end.

(** The items of a list can all be serialised, different items to
    different keys. *)
Definition keys_distinct {A} `{ItemKey A} (l : list A) : Prop :=
  ∃ code : A -> bytes,
    (∀ x, x ∈ l -> item_key x = Ok (code x))
    ∧ (∀ x y, x ∈ l -> y ∈ l -> code x = code y -> x = y).

Section KeyedVocabulary.
Context `{ItemKey TransactionInput} `{ItemKey VerificationKeyHash}
  `{ItemKey Certificate} `{ItemKey VerificationKeyWitness}
  `{ItemKey NativeScript} `{ItemKey BootstrapWitness}
  `{ItemKey PlutusScript} `{ItemKey PlutusData} `{ItemKey RedeemerItem}.

(** The key of an element of the attribute named by a field identifier. *)
Definition field_key (f : FieldId) : ItemKey (field_type f) :=
  match f with
  | f_inputs | f_collateral | f_reference_inputs =>
      item_key (A := TransactionInput)
  | f_certificates => item_key (A := Certificate)
  | f_required_signers => item_key (A := VerificationKeyHash)
  | f_vkey_witnesses => item_key (A := VerificationKeyWitness)
  | f_native_scripts => item_key (A := NativeScript)
  | f_bootstrap_witness => item_key (A := BootstrapWitness)
  | f_plutus_v1_script | f_plutus_v2_script | f_plutus_v3_script =>
      item_key (A := PlutusScript)
  | f_plutus_data => item_key (A := PlutusData)
  | f_redeemer => item_key (A := RedeemerItem)
  end.

(** A transaction the library can serialise item by item for a given
    collection type: in every policy-dependent attribute (certificates as
    processed) and in the pool owners of every pool registration, the
    items have keys and different items have different keys. *)
Definition well_keyed (tx : Transaction) (ct : CollectionType) : Prop :=
  (∀ f, keys_distinct (H := field_key f)
          (exported_items ct f (field_items f tx)))
  ∧ (∀ pp owners,
       PoolRegistration (Some pp) ∈ field_items f_certificates tx ->
       pool_owners pp = Some owners ->
       keys_distinct (items owners)).
End KeyedVocabulary.

(** A witness set with its redeemers replaced. *)
Definition with_redeemer (w : TransactionWitnessSet)
    (r : option (Coll RedeemerItem)) : TransactionWitnessSet :=
  {| vkey_witnesses := vkey_witnesses w;
     native_scripts := native_scripts w;
     bootstrap_witness := bootstrap_witness w;
     plutus_v1_script := plutus_v1_script w;
     plutus_v2_script := plutus_v2_script w;
     plutus_v3_script := plutus_v3_script w;
     plutus_data := plutus_data w;
     redeemer := r |}.

(** ** Sample transactions *)

Definition key_a : VerificationKeyHash := {| vkh_payload := [x0a] |}.
Definition key_b : VerificationKeyHash := {| vkh_payload := [x0b] |}.
Definition key_c : VerificationKeyHash := {| vkh_payload := [x0c] |}.

Definition input_1 : TransactionInput :=
  {| transaction_id := [x11; x22]; index := 0 |}.
Definition output_1 : TransactionOutput :=
  {| address := [x61]; amount := 2000000; output_extra := [] |}.
Definition output_2 : TransactionOutput :=
  {| address := [x62]; amount := 1500000; output_extra := [] |}.
Definition witness_1 : VerificationKeyWitness :=
  {| vkey := [x01]; signature := [x02] |}.

(** A body with the given inputs and certificates, two outputs and no
    other optional attribute. *)
Definition sample_body (ins : option (Coll TransactionInput))
    (certs : option (Coll Certificate)) : TransactionBody :=
  {| inputs := ins;
     outputs := [output_1; output_2];
     fee := 170000;
     ttl := None;
     certificates := certs;
     withdraws := None;
     update := None;
     auxiliary_data_hash := None;
     validity_start := None;
     mint := None;
     script_data_hash := None;
     collateral := None;
     required_signers := None;
     network_id := None;
     collateral_return := None;
     total_collateral := None;
     reference_inputs := None |}.

(** A witness set whose only attribute that may be set is the key
    witnesses. *)
Definition sample_witness_set
    (vkeys : option (Coll VerificationKeyWitness)) : TransactionWitnessSet :=
  {| vkey_witnesses := vkeys;
     native_scripts := None;
     bootstrap_witness := None;
     plutus_v1_script := None;
     plutus_v2_script := None;
     plutus_v3_script := None;
     plutus_data := None;
     redeemer := None |}.

Definition sample_tx (ins : option (Coll TransactionInput))
    (certs : option (Coll Certificate))
    (vkeys : option (Coll VerificationKeyWitness)) : Transaction :=
  {| transaction_body := sample_body ins certs;
     transaction_witness_set := sample_witness_set vkeys;
     auxiliary_data := None;
     valid := true |}.

Definition sample_pool_params
    (owners : option (Coll VerificationKeyHash)) : PoolParams :=
  {| operator := [xaa];
     vrf_keyhash := [xbb];
     pledge := 100000000;
     cost := 340000000;
     margin := (1, 50)%Z;
     reward_account := [xe1];
     pool_owners := owners;
     relays := Some [[x01; x02]];
     pool_metadata := Some [xcc] |}.

(** A window after a load and an export: the loaded transaction has a
    key-witness attribute that is present and empty. *)
Definition sample_window : MainWindow :=
  {| parser := TransactionParser_init;
     window_transaction_data :=
       Some {| cbor_hex := JString "84a0";
               transaction := sample_tx None None (Some (PyList [])) |};
     export_view := "84a0";
     era_combo := "Conway Era";
     output_format_combo := "CBOR Hex" |}.

(** A window whose parser and window hold the same loaded transaction,
    after an export to Conway with Set collections. *)
Definition sample_data : TransactionData :=
  {| cbor_hex := JString "84a0";
     transaction := sample_tx (Some (PyList [input_1])) None None |}.

Definition sample_synced_window : Window :=
  {| core :=
       {| parser := {| transaction_data := Some sample_data |};
          window_transaction_data := Some sample_data;
          export_view := "previous export";
          era_combo := "Conway Era";
          output_format_combo := "CBOR Hex" |};
     collection_combo := "Set";
     file_label := "File: first.json";
     view_button := true;
     export_button := true;
     save_button := true;
     transaction_view := "first" |}.

(** A serialiser in the manner of the library: every item has a key
    made of its payload, except a pool registration without pool
    parameters, which cannot be serialised. *)
Definition sample_certificate_key : ItemKey Certificate :=
  fun cert =>
    match cert with
    | StakeRegistration c => Ok (x00 :: c)
    | StakeDeregistration c => Ok (x01 :: c)
    | StakeDelegation c p => Ok (x02 :: c ++ p)
    | PoolRegistration (Some pp) => Ok (x03 :: operator pp)
    | PoolRegistration None =>
        Raise (TypeError "'NoneType' object is not iterable")
    | PoolRetirement p _ => Ok (x04 :: p)
    | OtherCertificate c => Ok c
    end.

Definition sample_export_keyed
    : Transaction -> Era -> CollectionType -> Exc Transaction :=
  @export_to_era_keyed
    (fun x => Ok (transaction_id x))
    (fun x => Ok (vkh_payload x))
    sample_certificate_key
    (fun x => Ok (vkey x))
    (fun x => Ok (native_script_cbor x))
    (fun x => Ok (bootstrap_cbor x))
    (fun x => Ok (script_bytes x))
    (fun x => Ok (datum_cbor x))
    (fun _ => Ok []).

(** Two redeemer maps with the same key and different values. *)
Definition spend_0 : RedeemerItem :=
  AsRedeemerKey {| key_tag := 0; key_index := 0 |}.
Definition sample_redeemer_map (value : bytes) : Coll RedeemerItem :=
  PyDictOf [(spend_0, value)].

(** * Properties *)

(** ** [OrderedSet]: first occurrences, in order, without duplicates *)

Section OrderedSetFacts.
Context {A : Type} `{EqDecision A}.
Implicit Types (acc l : list A) (x : A).

Lemma append_elem acc x y : y ∈ append acc x ↔ y ∈ acc ∨ y = x.
Proof.
  unfold append. case_decide as Hin.
  - split; [by left | intros [?| ->]; done].
  - rewrite elem_of_app, list_elem_of_singleton. done.
Qed.

Lemma append_NoDup acc x : NoDup acc → NoDup (append acc x).
Proof.
  intros Hnd. unfold append. case_decide as Hin; [done|].
  apply NoDup_app. split_and!; [done | | apply NoDup_singleton].
  intros y Hy Hy'. apply list_elem_of_singleton in Hy'. by subst.
Qed.

Lemma extend_elem l : ∀ acc y, y ∈ extend acc l ↔ y ∈ acc ∨ y ∈ l.
Proof.
  induction l as [|x l IH]; intros acc y; simpl.
  - rewrite elem_of_nil. tauto.
  - rewrite IH, append_elem, elem_of_cons. tauto.
Qed.

Lemma extend_NoDup l : ∀ acc, NoDup acc → NoDup (extend acc l).
Proof.
  induction l as [|x l IH]; intros acc Hnd; simpl; [done|].
  by apply IH, append_NoDup.
Qed.

(** On a list that already has no duplicates [extend] only concatenates. *)
Lemma extend_NoDup_app l : ∀ acc, NoDup (acc ++ l) → extend acc l = acc ++ l.
Proof.
  induction l as [|x l IH]; intros acc Hnd; simpl.
  - by rewrite app_nil_r.
  - assert (x ∉ acc) as Hx.
    { apply NoDup_app in Hnd as (_ & Hdisj & _).
      intros Hin. apply (Hdisj x Hin). by left. }
    unfold append. rewrite decide_False by done.
    rewrite IH; rewrite <- app_assoc; done.
Qed.

Lemma extend_fixed l : NoDup l → extend [] l = l.
Proof. intros Hnd. by apply (extend_NoDup_app l []). Qed.

Lemma extend_idem l : extend [] (extend [] l) = extend [] l.
Proof. apply extend_fixed, extend_NoDup, NoDup_nil_2. Qed.

Lemma extend_nil_inv l : extend [] l = [] → l = [].
Proof.
  intros Hnil. destruct l as [|x l]; [done|].
  assert (x ∈ extend [] (x :: l)) as Hin.
  { apply extend_elem. right. by left. }
  rewrite Hnil in Hin. by apply elem_of_nil in Hin.
Qed.
End OrderedSetFacts.

Example extend_first_wins :
  extend [] [3%Z; 1%Z; 3%Z; 2%Z; 1%Z] = [3%Z; 1%Z; 2%Z].
Proof. reflexivity. Qed.

(** ** The conditional expression [f(v) if v else d] *)

Lemma if_truthy_false {A B} (v : option (Coll A)) (f : Coll A -> B) (d : B) :
  truthy v = false → if_truthy v f d = d.
Proof. intros Hv. destruct v as [c|]; unfold if_truthy; [by rewrite Hv | done]. Qed.

Lemma if_truthy_true {A B} (c : Coll A) (f : Coll A -> B) (d : B) :
  truthy (Some c) = true → if_truthy (Some c) f d = f c.
Proof. intros Hv. unfold if_truthy. by rewrite Hv. Qed.

Lemma truthy_Some_inv {A} (v : option (Coll A)) :
  truthy v = true → ∃ c, v = Some c ∧ items c ≠ [].
Proof.
  destruct v as [c|]; simpl; [|done].
  destruct (items c) eqn:E; [done|]. intros _. by exists c; rewrite E.
Qed.

Lemma truthy_None {A} : truthy (@None (Coll A)) = false.
Proof. done. Qed.

Lemma export_to_era_returns tx era ct :
  export_to_era tx era ct = Ok (exported tx era ct).
Proof. by destruct era. Qed.

(** Every policy-dependent attribute of the export is one conditional
    expression over the same attribute of the source. *)
Ltac unfold_export :=
  unfold exported, _export_babbage, _export_conway,
    _build_babbage_transaction_body, _build_conway_transaction_body,
    _build_babbage_witness_set, _build_conway_witness_set,
    witness_set_with, conv_list, conv_nonempty_set, get_field in *.

(** ** C3: outputs *)

(** C3. For every transaction, era and collection type, the export
    returns, and the outputs of the exported body are the outputs of the
    source body: the same elements in the same order. *)
Theorem C3_outputs_unchanged (tx : Transaction) (era : Era)
    (ct : CollectionType) :
  ∃ tx', export_to_era tx era ct = Ok tx'
         ∧ outputs (transaction_body tx') = outputs (transaction_body tx).
Proof.
  exists (exported tx era ct). split; [apply export_to_era_returns|].
  destruct era, ct; reflexivity.
Qed.

(** ** The export, attribute by attribute *)

(** A truthy attribute is rebuilt in the class of the table, from its
    elements in order (certificates after processing). *)
Lemma export_field_truthy tx era ct f c :
  get_field f tx = Some c →
  truthy (Some c) = true →
  get_field f (exported tx era ct)
  = Some (build (class_chosen era ct f) (exported_items ct f (items c))).
Proof.
  intros Hf Ht. destruct tx as [b w a v]. destruct b, w.
  destruct era, ct, f; cbn [field_type] in c, Ht; simpl in Hf |- *; subst;
    rewrite ?if_truthy_true by done;
    unfold process_certificates; rewrite ?Ht; reflexivity.
Qed.

(** A falsy attribute becomes [None], except the inputs of a Conway
    export. *)
Lemma export_field_falsy tx era ct f :
  truthy (get_field f tx) = false →
  (era = CONWAY → f ≠ f_inputs) →
  get_field f (exported tx era ct) = None.
Proof.
  intros Hf Hne. destruct tx as [b w a v]. destruct b, w.
  destruct era, ct, f; simpl in Hf |- *;
    try (by rewrite if_truthy_false by done);
    by destruct Hne.
Qed.

Lemma export_conway_inputs_falsy tx ct :
  truthy (inputs (transaction_body tx)) = false →
  inputs (transaction_body (exported tx CONWAY ct))
  = Some (if is_default_or_set ct then set_ else PyList []).
Proof.
  intros Hf. destruct tx as [b w a v]. destruct b.
  destruct ct; simpl in Hf |- *; by rewrite if_truthy_false by done.
Qed.

(** An attribute rebuilt from a truthy source is truthy again. *)
Lemma exported_items_nil ct f (l : list (field_type f)) :
  exported_items ct f l = [] → l = [].
Proof. destruct f; simpl; try done. apply map_eq_nil. Qed.

Lemma build_items_nil {A} `{EqDecision A} (r : Repr) (l : list A) :
  r ≠ RSet → items (build r l) = [] → l = [].
Proof. destruct r; simpl; try done; intros _; apply extend_nil_inv. Qed.

Lemma class_chosen_not_set era ct f : class_chosen era ct f ≠ RSet.
Proof. by destruct era, ct, f. Qed.

Lemma class_chosen_not_dict era ct f : class_chosen era ct f ≠ RDict.
Proof. by destruct era, ct, f. Qed.

Lemma repr_of_build {A} `{EqDecision A} (r : Repr) (l : list A) :
  r ≠ RDict → repr_of (build r l) = r.
Proof. by destruct r. Qed.

(** An attribute of an export is a non-empty ordered set only when the
    table says so and the source attribute is truthy. *)
Lemma export_nonempty_set_inv tx era ct f :
  repr_of_field (get_field f (exported tx era ct)) = Some RNonEmptyOrderedSet →
  truthy (get_field f tx) = true
  ∧ class_chosen era ct f = RNonEmptyOrderedSet.
Proof.
  intros Hr. destruct (truthy (get_field f tx)) eqn:Ht.
  - split; [done|].
    destruct (truthy_Some_inv _ Ht) as (c & Hc & _).
    rewrite Hc in Ht.
    rewrite (export_field_truthy tx era ct f c Hc Ht) in Hr.
    simpl in Hr. rewrite repr_of_build in Hr by apply class_chosen_not_dict.
    congruence.
  - exfalso. destruct (decide (era = CONWAY ∧ f = f_inputs)) as [[-> ->]|Hne].
    + unfold get_field in Hr, Ht.
      rewrite export_conway_inputs_falsy in Hr by done. by destruct ct.
    + rewrite export_field_falsy in Hr; [done..|]. intros -> ->. by apply Hne.
Qed.

(** ** C1: a non-empty ordered set is never built from nothing *)

(** C1. Exporting to Conway with the default collection type a
    transaction whose certificates are empty or absent gives a body whose
    certificates are [None].  More generally, whenever an era and a
    collection type make some attribute a non-empty ordered set (as seen
    on the export of some transaction [tx0]), a transaction whose
    attribute is empty or absent is exported with that attribute [None];
    and no export holds an empty non-empty ordered set. *)
Theorem C1_empty_source_is_absent (tx : Transaction) :
  (truthy (certificates (transaction_body tx)) = false →
   ∃ tx', export_to_era tx CONWAY DEFAULT = Ok tx'
          ∧ certificates (transaction_body tx') = None)
  ∧ (∀ era ct f tx0 tx0',
       export_to_era tx0 era ct = Ok tx0' →
       repr_of_field (get_field f tx0') = Some RNonEmptyOrderedSet →
       truthy (get_field f tx) = false →
       ∃ tx', export_to_era tx era ct = Ok tx' ∧ get_field f tx' = None)
  ∧ (∀ era ct f tx' l,
       export_to_era tx era ct = Ok tx' →
       get_field f tx' = Some (NonEmptyOrderedSetOf l) →
       l ≠ []).
Proof.
  split_and!.
  - intros Hf. exists (exported tx CONWAY DEFAULT). split; [done|].
    by apply (export_field_falsy tx CONWAY DEFAULT f_certificates).
  - intros era ct f tx0 tx0' Hexp Hr Hf.
    rewrite export_to_era_returns in Hexp. injection Hexp as <-.
    apply export_nonempty_set_inv in Hr as [_ Hclass].
    exists (exported tx era ct). split; [apply export_to_era_returns|].
    apply export_field_falsy; [done|]. intros -> ->. by destruct ct.
  - intros era ct f tx' l Hexp Hl.
    rewrite export_to_era_returns in Hexp. injection Hexp as <-.
    destruct (export_nonempty_set_inv tx era ct f) as [Ht _].
    { by rewrite Hl. }
    destruct (truthy_Some_inv _ Ht) as (c & Hc & Hne).
    rewrite Hc in Ht.
    rewrite (export_field_truthy tx era ct f c Hc Ht) in Hl.
    intros ->. apply Hne.
    apply (exported_items_nil ct f), (build_items_nil (class_chosen era ct f)).
    + apply class_chosen_not_set.
    + injection Hl as Hl. by rewrite Hl.
Qed.


Lemma C1_empty_source_is_absent_witness :
  (∃ tx', export_to_era (sample_tx None (Some (PyList [])) None)
            CONWAY DEFAULT = Ok tx'
          ∧ certificates (transaction_body tx') = None)
  ∧ (∃ tx', export_to_era (sample_tx None None (Some (PyList [])))
              BABBAGE SET = Ok tx'
            ∧ get_field f_vkey_witnesses tx' = None).
Proof.
  split.
  - apply (C1_empty_source_is_absent (sample_tx None (Some (PyList [])) None)).
    reflexivity.
  - pose (tx0 := sample_tx None None (Some (PyList [witness_1]))).
    apply (proj1 (proj2 (C1_empty_source_is_absent
                           (sample_tx None None (Some (PyList [])))))
             BABBAGE SET f_vkey_witnesses tx0 (exported tx0 BABBAGE SET));
      reflexivity.
Defined.

(** ** Certificates *)

Lemma elem_of_map {A B} (g : A → B) (l : list A) (y : B) :
  y ∈ map g l ↔ ∃ x, x ∈ l ∧ y = g x.
Proof.
  rewrite list_elem_of_In, in_map_iff. split.
  - intros (x & <- & Hx). exists x. by rewrite list_elem_of_In.
  - intros (x & Hx & ->). exists x. by rewrite <- list_elem_of_In.
Qed.

Lemma elem_of_build {A} `{EqDecision A} (r : Repr) (l : list A) (x : A) :
  r ≠ RSet → x ∈ items (build r l) ↔ x ∈ l.
Proof.
  destruct r; simpl; try done; intros _; rewrite extend_elem, elem_of_nil; tauto.
Qed.

(** The certificates of an export are exactly the processed certificates
    of the source. *)
Lemma export_certificates tx era ct c :
  certificates (transaction_body tx) = Some c →
  items c ≠ [] →
  ∃ c', certificates (transaction_body (exported tx era ct)) = Some c'
        ∧ repr_of c' = class_chosen era ct f_certificates
        ∧ ∀ x, x ∈ items c' ↔ ∃ y, y ∈ items c ∧ x = process_certificate ct y.
Proof.
  intros Hc Hne.
  assert (truthy (Some c) = true) as Ht by (simpl; by destruct (items c)).
  pose proof (export_field_truthy tx era ct f_certificates c Hc Ht) as Hexp.
  eexists. split; [exact Hexp|].
  split; [apply repr_of_build, class_chosen_not_dict|].
  intros x. rewrite elem_of_build by apply class_chosen_not_set.
  apply elem_of_map.
Qed.

(** The two early returns of [_process_pool_registration_cert]. *)
Lemma process_no_pool_params ct :
  process_certificate ct (PoolRegistration None) = PoolRegistration None.
Proof. done. Qed.

Lemma process_falsy_owners ct pp :
  truthy (pool_owners pp) = false →
  process_certificate ct (PoolRegistration (Some pp))
  = PoolRegistration (Some pp).
Proof. intros Hf. simpl. by rewrite if_truthy_false. Qed.

Lemma process_truthy_owners ct pp owners :
  pool_owners pp = Some owners →
  items owners ≠ [] →
  process_certificate ct (PoolRegistration (Some pp))
  = PoolRegistration
      (Some {| operator := operator pp;
               vrf_keyhash := vrf_keyhash pp;
               pledge := pledge pp;
               cost := cost pp;
               margin := margin pp;
               reward_account := reward_account pp;
               pool_owners :=
                 Some (if is_default_or_set ct
                       then OrderedSetOf (extend [] (items owners))
                       else PyList (items owners));
               relays := relays pp;
               pool_metadata := pool_metadata pp |}).
Proof.
  intros Ho Hne. simpl. rewrite Ho, if_truthy_true.
  - by destruct ct.
  - simpl. by destruct (items owners).
Qed.

Lemma process_other ct cert :
  (∀ pp, cert ≠ PoolRegistration pp) → process_certificate ct cert = cert.
Proof. intros Hne. destruct cert; try done. by destruct (Hne pool_params). Qed.

(** ** C2: absent attributes *)

(** C2 as stated fails: the inputs of a transaction without inputs become
    the empty [set()] in a Conway export. *)
Lemma C2_conway_inputs_counterexample :
  get_field f_inputs (sample_tx None None None) = None
  ∧ ∃ tx', export_to_era (sample_tx None None None) CONWAY DEFAULT = Ok tx'
           ∧ get_field f_inputs tx' = Some set_
           ∧ get_field f_inputs tx' ≠ None.
Proof. split; [done|]. eexists. split; [reflexivity|]. by split. Qed.

(** C2, amended. For every transaction, era and collection type the
    export returns, and every policy-dependent attribute that is [None]
    in the source is [None] in the export, except the inputs of a Conway
    export, which become an empty collection ([set()] under Default and
    Set, [[]] under List); a pool-registration certificate whose pool
    owners are [None] is handed on as it is. *)
Theorem C2_absent_stays_absent (tx : Transaction) (era : Era)
    (ct : CollectionType) :
  ∃ tx', export_to_era tx era ct = Ok tx'
    ∧ (∀ f, get_field f tx = None →
            (era = CONWAY → f ≠ f_inputs) →
            get_field f tx' = None)
    ∧ (get_field f_inputs tx = None → era = CONWAY →
       get_field f_inputs tx'
       = Some (if is_default_or_set ct then set_ else PyList []))
    ∧ (∀ pp c, pool_owners pp = None →
               certificates (transaction_body tx) = Some c →
               PoolRegistration (Some pp) ∈ items c →
               ∃ c', certificates (transaction_body tx') = Some c'
                     ∧ PoolRegistration (Some pp) ∈ items c').
Proof.
  exists (exported tx era ct). split_and!.
  - apply export_to_era_returns.
  - intros f Hf Hne. apply export_field_falsy; [by rewrite Hf | done].
  - intros Hf ->. apply export_conway_inputs_falsy.
    unfold get_field in Hf. by rewrite Hf.
  - intros pp c Ho Hc Hin.
    destruct (export_certificates tx era ct c Hc) as (c' & Hc' & _ & Helem).
    { intros Hnil. rewrite Hnil in Hin. by apply elem_of_nil in Hin. }
    exists c'. split; [done|]. apply Helem.
    exists (PoolRegistration (Some pp)). split; [done|].
    symmetry. apply process_falsy_owners. by rewrite Ho.
Qed.

Lemma C2_absent_stays_absent_witness :
  ∃ tx', export_to_era (sample_tx None None None) BABBAGE SET = Ok tx'
         ∧ get_field f_inputs tx' = None
         ∧ get_field f_redeemer tx' = None.
Proof.
  destruct (C2_absent_stays_absent (sample_tx None None None) BABBAGE SET)
    as (tx' & Hexp & Habs & _).
  exists tx'. split_and!; [done | apply Habs; done..].
Defined.

(** ** C5: pool owners under Set *)

(** C5 as stated fails when the pool owners are empty: the certificate is
    not rebuilt and its owners stay the empty [list] they were instead of
    becoming an ordered set. *)
Lemma C5_empty_owners_counterexample :
  ∃ tx', export_to_era
           (sample_tx None
              (Some (PyList
                 [PoolRegistration
                    (Some (sample_pool_params (Some (PyList []))))]))
              None)
           BABBAGE SET = Ok tx'
    ∧ certificates (transaction_body tx')
      = Some (NonEmptyOrderedSetOf
                [PoolRegistration
                   (Some (sample_pool_params (Some (PyList []))))])
    ∧ ∀ pp', PoolRegistration (Some pp') ∈
               [PoolRegistration (Some (sample_pool_params (Some (PyList []))))] →
             option_map repr_of (pool_owners pp') ≠ Some ROrderedSet.
Proof.
  eexists. split_and!; [reflexivity..|].
  intros pp' Hin. apply list_elem_of_singleton in Hin.
  injection Hin as ->. discriminate.
Qed.

(** C5, amended. Exporting with collection type Set a transaction whose
    certificates hold a pool registration with pool parameters and a
    non-empty owners collection puts into the exported certificates a
    pool registration whose owners are an ordered set of exactly the
    source owners, without repetition and in order of first occurrence,
    and whose other pool parameters are those of the source; a
    certificate that is not a pool registration, and a pool registration
    whose owners are empty or absent, is among the exported certificates
    as it is; and the exported certificates hold nothing else. *)
Theorem C5_pool_owners_under_set (tx : Transaction) (era : Era)
    (c : Coll Certificate) (pp : PoolParams)
    (owners : Coll VerificationKeyHash) :
  certificates (transaction_body tx) = Some c →
  PoolRegistration (Some pp) ∈ items c →
  pool_owners pp = Some owners →
  items owners ≠ [] →
  ∃ tx' c' pp' l,
    export_to_era tx era SET = Ok tx'
    ∧ certificates (transaction_body tx') = Some c'
    ∧ PoolRegistration (Some pp') ∈ items c'
    ∧ pool_owners pp' = Some (OrderedSetOf l)
    ∧ l = extend [] (items owners)
    ∧ NoDup l
    ∧ (∀ k, k ∈ l ↔ k ∈ items owners)
    ∧ (operator pp' = operator pp
       ∧ vrf_keyhash pp' = vrf_keyhash pp
       ∧ pledge pp' = pledge pp
       ∧ cost pp' = cost pp
       ∧ margin pp' = margin pp
       ∧ reward_account pp' = reward_account pp
       ∧ relays pp' = relays pp
       ∧ pool_metadata pp' = pool_metadata pp)
    ∧ (∀ cert, cert ∈ items c →
               (∀ q, cert ≠ PoolRegistration q) → cert ∈ items c')
    ∧ (∀ q, PoolRegistration (Some q) ∈ items c →
            truthy (pool_owners q) = false →
            PoolRegistration (Some q) ∈ items c')
    ∧ (∀ cert', cert' ∈ items c' →
                ∃ cert, cert ∈ items c ∧ cert' = process_certificate SET cert).
Proof.
  intros Hc Hin Ho Hne.
  destruct (export_certificates tx era SET c Hc) as (c' & Hc' & _ & Helem).
  { intros Hnil. rewrite Hnil in Hin. by apply elem_of_nil in Hin. }
  pose proof (process_truthy_owners SET pp owners Ho Hne) as Hproc.
  eexists (exported tx era SET), c', _, (extend [] (items owners)).
  split; [apply export_to_era_returns|].
  split; [done|].
  split.
  { apply Helem. exists (PoolRegistration (Some pp)). split; [done|].
    symmetry. exact Hproc. }
  split; [reflexivity|].
  split; [reflexivity|].
  split; [apply extend_NoDup, NoDup_nil_2|].
  split.
  { intros k. rewrite extend_elem, elem_of_nil. tauto. }
  split; [done|].
  split.
  { intros cert Hcert Hnp. apply Helem. exists cert. split; [done|].
    symmetry. by apply process_other. }
  split.
  { intros q Hq Hf. apply Helem. exists (PoolRegistration (Some q)).
    split; [done|]. symmetry. by apply process_falsy_owners. }
  intros cert' Hcert'. by apply Helem.
Qed.

Lemma C5_pool_owners_under_set_witness :
  ∃ tx' c' pp',
    export_to_era
      (sample_tx None
         (Some (PyList
            [StakeRegistration [x01];
             PoolRegistration
               (Some (sample_pool_params
                        (Some (PyList [key_a; key_b; key_a; key_c]))))]))
         None)
      CONWAY SET = Ok tx'
    ∧ certificates (transaction_body tx') = Some c'
    ∧ PoolRegistration (Some pp') ∈ items c'
    ∧ pool_owners pp' = Some (OrderedSetOf [key_a; key_b; key_c])
    ∧ StakeRegistration [x01] ∈ items c'.
Proof.
  pose (pp := sample_pool_params (Some (PyList [key_a; key_b; key_a; key_c]))).
  pose (certs := PyList [StakeRegistration [x01]; PoolRegistration (Some pp)]).
  destruct (C5_pool_owners_under_set (sample_tx None (Some certs) None)
              CONWAY certs pp (PyList [key_a; key_b; key_a; key_c]))
    as (tx' & c' & pp' & l & Hexp & Hc' & Hin & Ho & Hl & _ & _ & _ & Hoth & _).
  - reflexivity.
  - apply list_elem_of_In. simpl. right. by left.
  - reflexivity.
  - discriminate.
  - exists tx', c', pp'. split_and!; [done..| |].
    + rewrite Ho, Hl. reflexivity.
    + apply Hoth; [|discriminate]. apply list_elem_of_In. simpl. by left.
Defined.

(** ** C6: List and Set are applied as requested *)



(** ** C7: exporting an export *)

Lemma process_certificate_idem ct cert :
  process_certificate ct (process_certificate ct cert)
  = process_certificate ct cert.
Proof.
  destruct cert as [| | |[pp|]| |]; try done.
  destruct (truthy (pool_owners pp)) eqn:Ht.
  - destruct (truthy_Some_inv _ Ht) as (owners & Ho & Hne).
    rewrite (process_truthy_owners ct pp owners Ho Hne).
    erewrite process_truthy_owners; [|reflexivity|].
    + simpl. destruct ct; simpl; by rewrite ?extend_idem.
    + destruct ct; simpl; try done; intros Hnil; by apply extend_nil_inv in Hnil.
  - by rewrite !process_falsy_owners.
Qed.

Lemma map_fixed {A} (g : A → A) (l : list A) :
  (∀ x, x ∈ l → g x = x) → map g l = l.
Proof.
  induction l as [|x l IH]; intros Hg; simpl; [done|].
  rewrite Hg by (by left). rewrite IH; [done|].
  intros y Hy. apply Hg. by right.
Qed.

(** Rebuilding a rebuilt attribute changes nothing. *)
Lemma build_idem {A} `{EqDecision A} (r : Repr) (g : A → A) (l : list A) :
  (∀ x, g (g x) = g x) →
  build r (map g (items (build r (map g l)))) = build r (map g l).
Proof.
  intros Hg. destruct r; simpl; try done.
  - rewrite map_map. f_equal. apply map_ext. done.
  - rewrite map_fixed, extend_idem; [done|].
    intros x Hx. apply extend_elem in Hx as [Hx|Hx]; [by apply elem_of_nil in Hx|].
    apply elem_of_map in Hx as (y & _ & ->). apply Hg.
  - rewrite map_fixed, extend_idem; [done|].
    intros x Hx. apply extend_elem in Hx as [Hx|Hx]; [by apply elem_of_nil in Hx|].
    apply elem_of_map in Hx as (y & _ & ->). apply Hg.
  - rewrite map_map. f_equal. apply map_ext. done.
Qed.

Lemma build_items_idem {A} `{EqDecision A} (r : Repr) (l : list A) :
  build r (items (build r l)) = build r l.
Proof. destruct r; simpl; by rewrite ?extend_idem. Qed.

Lemma build_truthy {A} `{EqDecision A} (r : Repr) (l : list A) :
  r ≠ RSet → l ≠ [] → truthy (Some (build r l)) = true.
Proof.
  intros Hr Hl. simpl. destruct (items (build r l)) eqn:E; [|done].
  by apply build_items_nil in E.
Qed.

(** Exporting an export leaves every policy-dependent attribute as the
    first export made it. *)
Lemma exported_field_idem tx era ct f :
  get_field f (exported (exported tx era ct) era ct)
  = get_field f (exported tx era ct).
Proof.
  destruct (truthy (get_field f tx)) eqn:Ht.
  - destruct (truthy_Some_inv _ Ht) as (c & Hc & Hne). rewrite Hc in Ht.
    pose proof (export_field_truthy tx era ct f c Hc Ht) as H1.
    rewrite (export_field_truthy _ era ct f _ H1).
    + rewrite H1. f_equal. destruct f; simpl exported_items;
        try apply build_items_idem.
      apply build_idem, process_certificate_idem.
    + apply build_truthy; [apply class_chosen_not_set|].
      intros Hnil. by apply exported_items_nil in Hnil.
  - destruct (decide (era = CONWAY ∧ f = f_inputs)) as [[-> ->]|Hne].
    + unfold get_field in *.
      rewrite (export_conway_inputs_falsy tx ct Ht).
      apply export_conway_inputs_falsy.
      rewrite (export_conway_inputs_falsy tx ct Ht). by destruct ct.
    + assert (era = CONWAY → f ≠ f_inputs) as Hne' by (intros -> ->; by apply Hne).
      rewrite (export_field_falsy tx era ct f Ht Hne').
      apply export_field_falsy; [|done].
      by rewrite (export_field_falsy tx era ct f Ht Hne').
Qed.

Lemma exported_idem tx era ct :
  exported (exported tx era ct) era ct = exported tx era ct.
Proof.
  pose proof (exported_field_idem tx era ct) as H.
  destruct tx as [b w a v]. destruct b, w.
  destruct era, ct.
  all: unfold exported, _export_babbage, _export_conway; f_equal.
  all: unfold _build_babbage_transaction_body, _build_conway_transaction_body,
         _build_babbage_witness_set, _build_conway_witness_set,
         witness_set_with; cbn; f_equal.
  all: first [ exact (H f_inputs) | exact (H f_certificates)
             | exact (H f_collateral) | exact (H f_required_signers)
             | exact (H f_reference_inputs) | exact (H f_vkey_witnesses)
             | exact (H f_native_scripts) | exact (H f_bootstrap_witness)
             | exact (H f_plutus_v1_script) | exact (H f_plutus_v2_script)
             | exact (H f_plutus_v3_script) | exact (H f_plutus_data)
             | exact (H f_redeemer) ].
Qed.

(** C7. For every transaction and era, the export with the default
    collection type returns a transaction whose own export with the same
    era and the default collection type returns that same transaction. *)
Theorem C7_default_export_idempotent (tx : Transaction) (era : Era) :
  ∃ tx1, export_to_era tx era DEFAULT = Ok tx1
         ∧ export_to_era tx1 era DEFAULT = Ok tx1.
Proof.
  exists (exported tx era DEFAULT). split; [apply export_to_era_returns|].
  by rewrite export_to_era_returns, exported_idem.
Qed.

Example export_conway_default_sample :
  let tx := sample_tx (Some (PyList [input_1; input_1]))
              (Some (PyList
                 [PoolRegistration
                    (Some (sample_pool_params
                             (Some (PyList [key_b; key_a; key_b]))));
                  StakeRegistration [x01];
                  StakeRegistration [x01]]))
              (Some (PyList [witness_1])) in
  export_to_era tx CONWAY DEFAULT
  = Ok (sample_tx (Some (OrderedSetOf [input_1]))
          (Some (NonEmptyOrderedSetOf
             [PoolRegistration
                (Some (sample_pool_params
                         (Some (OrderedSetOf [key_b; key_a]))));
              StakeRegistration [x01]]))
          (Some (NonEmptyOrderedSetOf [witness_1]))).
Proof. reflexivity. Qed.

(** ** C9: present but empty attributes *)

(** C9 as stated fails for pool owners: a pool registration whose owners
    are an empty [list] is handed on as it is, so the owners of the
    exported certificate are still that empty [list], not [None]. *)
Lemma C9_empty_pool_owners_counterexample :
  ∃ tx', export_to_era
           (sample_tx None
              (Some (PyList
                 [PoolRegistration
                    (Some (sample_pool_params (Some (PyList []))))]))
              None)
           CONWAY DEFAULT = Ok tx'
    ∧ certificates (transaction_body tx')
      = Some (NonEmptyOrderedSetOf
                [PoolRegistration
                   (Some (sample_pool_params (Some (PyList []))))])
    ∧ pool_owners (sample_pool_params (Some (PyList []))) = Some (PyList [])
    ∧ pool_owners (sample_pool_params (Some (PyList []))) ≠ None.
Proof. eexists. split_and!; [reflexivity..|discriminate]. Qed.

(** C9, amended. For every era and collection type the export returns;
    an attribute of the body or of the witness set that holds an empty
    collection in the source is [None] in the export, except the inputs
    of a Conway export; the inputs of a Conway export are the empty
    [set()] under Default and Set and the empty [list] under List when
    the source inputs are empty or absent; and a pool registration whose
    owners hold an empty collection is among the exported certificates as
    it is, its owners still that empty collection. *)
Theorem C9_empty_treated_as_absent (tx : Transaction) (era : Era)
    (ct : CollectionType) :
  ∃ tx', export_to_era tx era ct = Ok tx'
    ∧ (∀ f c, get_field f tx = Some c → items c = [] →
              (era = CONWAY → f ≠ f_inputs) →
              get_field f tx' = None)
    ∧ (era = CONWAY → truthy (get_field f_inputs tx) = false →
       get_field f_inputs tx'
       = Some (if is_default_or_set ct then set_ else PyList []))
    ∧ (∀ c pp owners,
         certificates (transaction_body tx) = Some c →
         PoolRegistration (Some pp) ∈ items c →
         pool_owners pp = Some owners → items owners = [] →
         ∃ c', certificates (transaction_body tx') = Some c'
               ∧ PoolRegistration (Some pp) ∈ items c').
Proof.
  exists (exported tx era ct). split; [apply export_to_era_returns|].
  split; [|split].
  - intros f c Hc Hnil Hne. apply export_field_falsy; [|done].
    rewrite Hc. simpl. by rewrite Hnil.
  - intros -> Hf. by apply export_conway_inputs_falsy.
  - intros c pp owners Hc Hin Ho Hnil.
    destruct (export_certificates tx era ct c Hc) as (c' & Hc' & _ & Helem).
    { intros Hn. rewrite Hn in Hin. by apply elem_of_nil in Hin. }
    exists c'. split; [done|]. apply Helem.
    exists (PoolRegistration (Some pp)). split; [done|].
    symmetry. apply process_falsy_owners. rewrite Ho. simpl. by rewrite Hnil.
Qed.

Lemma C9_empty_treated_as_absent_witness :
  ∃ tx', export_to_era
           (sample_tx (Some (PyList [])) (Some (OrderedSetOf []))
              (Some (PyList [])))
           BABBAGE DEFAULT = Ok tx'
    ∧ get_field f_inputs tx' = None
    ∧ get_field f_certificates tx' = None
    ∧ get_field f_vkey_witnesses tx' = None.
Proof.
  destruct (C9_empty_treated_as_absent
              (sample_tx (Some (PyList [])) (Some (OrderedSetOf []))
                 (Some (PyList [])))
              BABBAGE DEFAULT) as (tx' & Hexp & Hempty & _).
  exists tx'. split; [done|]. split_and!.
  - by apply (Hempty f_inputs (PyList [])).
  - by apply (Hempty f_certificates (OrderedSetOf [])).
  - by apply (Hempty f_vkey_witnesses (PyList [])).
Defined.

(** ** C10: [parse_from_json] stores a transaction or changes nothing *)

Section ParseFromJson.
Variable is_file : string → bool.
Variable read_text : string → Exc string.
Variable json_loads : string → Exc JSON.
Variable fromhex : string → Exc bytes.
Variable from_cbor : bytes → Exc Transaction.

Local Abbreviation parse :=
  (parse_from_json is_file read_text json_loads fromhex from_cbor).
Local Abbreviation load := (load_json_file is_file read_text json_loads).
Local Abbreviation init := (TransactionData_init fromhex from_cbor).

(** The body of the [try] block assigns only as its last step. *)
Lemma parse_from_json_cases path self :
  (∃ data cbor_hex td,
     load path = Ok data
     ∧ py_in "cborHex" data = Ok true
     ∧ py_getitem data "cborHex" = Ok cbor_hex
     ∧ init cbor_hex = Ok td
     ∧ parse path self = (Ok td, {| transaction_data := Some td |}))
  ∨ (∃ e, parse path self
          = (Raise (ValueError ("Failed to parse JSON file: " +:+ str_exn e)),
             self)
          ∧ (load path = Raise e
             ∨ (∃ data, load path = Ok data
                  ∧ (py_in "cborHex" data = Raise e
                     ∨ (py_in "cborHex" data = Ok false
                        ∧ e = ValueError
                                "JSON file must contain 'cborHex' field")
                     ∨ (py_in "cborHex" data = Ok true
                        ∧ (py_getitem data "cborHex" = Raise e
                           ∨ ∃ v, py_getitem data "cborHex" = Ok v
                                  ∧ init v = Raise e)))))).
Proof.
  unfold parse_from_json, m_try, m_bind, m_lift, m_raise, m_ret,
    set_transaction_data.
  destruct (load_json_file _ _ _ path) as [data|e] eqn:Hload.
  2:{ right. exists e. split; [done|]. by left. }
  destruct (py_in "cborHex" data) as [[|]|e] eqn:Hin; simpl.
  - destruct (py_getitem data "cborHex") as [v|e] eqn:Hget.
    + destruct (TransactionData_init _ _ v) as [td|e] eqn:Hinit.
      * left. by exists data, v, td.
      * right. exists e. split; [done|]. right. exists data. split; [done|].
        right. right. split; [done|]. right. by exists v.
    + right. exists e. split; [done|]. right. exists data. split; [done|].
      right. right. split; [done|]. by left.
  - right. exists (ValueError "JSON file must contain 'cborHex' field").
    split; [done|]. right. exists data. split; [done|].
    right. left. done.
  - right. exists e. split; [done|]. right. exists data. split; [done|].
    by left.
Qed.

(** C10. For every environment, path and parser object,
    [parse_from_json] either returns a [TransactionData] and that very
    object is then the parser's stored transaction data, or raises a
    [ValueError] whose message starts with "Failed to parse JSON file: "
    and leaves the parser as it was.  A missing file, a file that is not
    JSON, JSON without a [cborHex] member and bytes that do not decode to
    a transaction all end in the second case. *)
Theorem C10_parse_from_json_all_or_nothing (path : string)
    (self : TransactionParser) :
  ((∃ td, parse path self = (Ok td, {| transaction_data := Some td |}))
   ∨ (∃ msg, parse path self
             = (Raise (ValueError ("Failed to parse JSON file: " +:+ msg)),
                self)))
  ∧ (is_file path = false →
     ∃ msg, parse path self
            = (Raise (ValueError ("Failed to parse JSON file: " +:+ msg)),
               self))
  ∧ (∀ text e, is_file path = true → read_text path = Ok text →
               json_loads text = Raise e →
     parse path self
     = (Raise (ValueError ("Failed to parse JSON file: " +:+ str_exn e)),
        self))
  ∧ (∀ text members, is_file path = true → read_text path = Ok text →
                     json_loads text = Ok (JObject members) →
                     dict_get members "cborHex" = None →
     parse path self
     = (Raise (ValueError
                 ("Failed to parse JSON file: "
                  +:+ "JSON file must contain 'cborHex' field")),
        self))
  ∧ (∀ text members hex e,
       is_file path = true → read_text path = Ok text →
       json_loads text = Ok (JObject members) →
       dict_get members "cborHex" = Some (JString hex) →
       (fromhex hex = Raise e
        ∨ ∃ b, fromhex hex = Ok b ∧ from_cbor b = Raise e) →
     parse path self
     = (Raise (ValueError
                 ("Failed to parse JSON file: "
                  +:+ "Invalid CBOR hex or transaction format: "
                  +:+ str_exn e)),
        self))
  ∧ (∀ text members hex b tx,
       is_file path = true → read_text path = Ok text →
       json_loads text = Ok (JObject members) →
       dict_get members "cborHex" = Some (JString hex) →
       fromhex hex = Ok b → from_cbor b = Ok tx →
     parse path self
     = (Ok {| cbor_hex := JString hex; transaction := tx |},
        {| transaction_data :=
             Some {| cbor_hex := JString hex; transaction := tx |} |})).
Proof.
  split.
  { destruct (parse_from_json_cases path self)
      as [(data & v & td & _ & _ & _ & _ & Hp)|(e & Hp & _)].
    - left. by exists td.
    - right. by exists (str_exn e). }
  unfold parse_from_json, m_try, m_bind, m_lift, m_raise, m_ret,
    set_transaction_data, load_json_file, check_file_exists,
    TransactionData_init, _parse_transaction, try_except, bind.
  split; [|split; [|split; [|split]]].
  - intros ->. simpl. by eexists.
  - intros text e -> -> ->. done.
  - intros text members -> -> -> Hget. simpl. by rewrite Hget.
  - intros text members hex e -> -> -> Hget Hfail. simpl. rewrite Hget. simpl.
    destruct Hfail as [->|(b & -> & ->)]; done.
  - intros text members hex b tx -> -> -> Hget Hhex Hcbor. simpl.
    rewrite Hget. simpl. by rewrite Hhex, Hcbor.
Qed.
End ParseFromJson.

Lemma C10_parse_from_json_all_or_nothing_witness :
  let is_file := String.eqb "tx.json" in
  let read_text := fun _ : string => Ok "{}" in
  let json_loads := fun _ : string => Ok (JObject [("cborHex", JString "84")]) in
  let fromhex := fun _ : string => Ok [x84] in
  let from_cbor := fun _ : bytes => Ok (sample_tx None None None) in
  let td := {| cbor_hex := JString "84";
               transaction := sample_tx None None None |} in
  parse_from_json is_file read_text json_loads fromhex from_cbor
    "tx.json" TransactionParser_init
  = (Ok td, {| transaction_data := Some td |})
  ∧ ∃ msg,
      parse_from_json is_file read_text json_loads fromhex from_cbor
        "missing.json" {| transaction_data := Some td |}
      = (Raise (ValueError ("Failed to parse JSON file: " +:+ msg)),
         {| transaction_data := Some td |}).
Proof.
  intros is_file read_text json_loads fromhex from_cbor td. split.
  - apply (C10_parse_from_json_all_or_nothing is_file read_text json_loads
             fromhex from_cbor "tx.json" TransactionParser_init)
      with (text := "{}") (members := [("cborHex", JString "84")]) (b := [x84]);
      reflexivity.
  - apply (C10_parse_from_json_all_or_nothing is_file read_text json_loads
             fromhex from_cbor "missing.json" {| transaction_data := Some td |}).
    reflexivity.
Defined.

(** ** C8: the saved file *)

Section SavePathFacts.
Variable getSaveFileName : string → string.
Variable to_cbor_hex : Transaction → Exc string.
Variable dump_json_file : string → list (string * string) → Exc unit.

Local Abbreviation save :=
  (save_export_to_file getSaveFileName to_cbor_hex dump_json_file).

(** The witness set is empty for [is_empty] when no attribute of it is
    truthy. *)
Lemma is_empty_false tx :
  is_empty (transaction_witness_set tx) = false
  ↔ ∃ f, is_witness_field f = true ∧ truthy (get_field f tx) = true.
Proof.
  destruct tx as [b w a v]. unfold is_empty, get_field.
  cbn [transaction_witness_set]. split.
  - intros He. rewrite !andb_false_iff, !negb_false_iff in He.
    destruct He as [[[[[[[H|H]|H]|H]|H]|H]|H]|H].
    + by exists f_vkey_witnesses.
    + by exists f_native_scripts.
    + by exists f_bootstrap_witness.
    + by exists f_plutus_v1_script.
    + by exists f_plutus_data.
    + by exists f_redeemer.
    + by exists f_plutus_v2_script.
    + by exists f_plutus_v3_script.
  - intros (f & Hw & Ht).
    destruct f; try discriminate Hw; cbn [field_type] in Ht; rewrite Ht;
      simpl; by rewrite ?andb_false_r.
Qed.

(** Every file the save path writes is a dump of [tx_json_of] for the
    loaded transaction. *)
Lemma save_dump_inv self fpath data :
  DumpJsonFile fpath data ∈ save self →
  ∃ td hex,
    window_transaction_data self = Some td
    ∧ to_cbor_hex (transaction td) = Ok hex
    ∧ data = tx_json_of
               (if is_empty (transaction_witness_set (transaction td))
                then "Unwitnessed" else "Signed")
               (if String.eqb (era_combo self) "Babbage Era"
                then BABBAGE else CONWAY)
               hex.
Proof.
  unfold save_export_to_file, save_attempt. intros Hin.
  destruct (String.eqb (export_view self) "").
  { apply list_elem_of_singleton in Hin. discriminate Hin. }
  destruct (String.eqb (getSaveFileName _) "").
  { by apply elem_of_nil in Hin. }
  destruct (window_transaction_data self) as [td|].
  2:{ apply list_elem_of_singleton in Hin. discriminate Hin. }
  destruct (to_cbor_hex (transaction td)) as [hex|e] eqn:Hhex.
  2:{ apply list_elem_of_singleton in Hin. discriminate Hin. }
  exists td, hex. split; [done|]. split; [done|].
  destruct (dump_json_file _ _) as [u|e];
    apply list_elem_of_In in Hin; simpl in Hin;
    destruct Hin as [Hin|[Hin|[]]]; try discriminate Hin;
    by injection Hin as _ <-.
Qed.

(** C8, amended. Whatever the save path dumps is a JSON object with
    exactly the three members [type], [description] and [cborHex], in
    that order: [type] is "Signed Tx <Era>Era" when some attribute of
    the loaded transaction's witness set is present and non-empty and
    "Unwitnessed Tx <Era>Era" otherwise (an attribute holding an empty
    collection counts like an absent one), with <Era> being Babbage or
    Conway as selected; [description] is a fixed string; [cborHex] is
    [to_cbor_hex] of the loaded transaction itself, no export being
    involved.  The dump is made whenever there is export text, a file
    is chosen, a transaction is loaded and it serialises. *)
Theorem C8_saved_json_object (self : MainWindow) :
  (∀ fpath data,
     DumpJsonFile fpath data ∈ save self →
     ∃ td hex status era_name,
       window_transaction_data self = Some td
       ∧ to_cbor_hex (transaction td) = Ok hex
       ∧ data = [ ("type", status +:+ " Tx " +:+ era_name +:+ "Era");
                  ("description", "Generated by Cardano Transaction Sanitizer");
                  ("cborHex", hex) ]
       ∧ ((era_combo self = "Babbage Era" ∧ era_name = "Babbage")
          ∨ (era_combo self ≠ "Babbage Era" ∧ era_name = "Conway"))
       ∧ ((status = "Signed"
           ∧ ∃ f, is_witness_field f = true
                  ∧ truthy (get_field f (transaction td)) = true)
          ∨ (status = "Unwitnessed"
             ∧ ∀ f, is_witness_field f = true →
                    truthy (get_field f (transaction td)) = false)))
  ∧ (∀ td hex,
       export_view self ≠ "" →
       getSaveFileName
         ("exported_transaction."
          +:+ (if String.eqb (lower (output_format_combo self)) "json"
               then "json" else "txt")) ≠ "" →
       window_transaction_data self = Some td →
       to_cbor_hex (transaction td) = Ok hex →
       ∃ fpath data rest,
         save self = DumpJsonFile fpath data :: rest ∧ fpath ≠ "").
Proof.
  split.
  - intros fpath data Hin.
    destruct (save_dump_inv self fpath data Hin) as (td & hex & Htd & Hhex & ->).
    exists td, hex,
      (if is_empty (transaction_witness_set (transaction td))
       then "Unwitnessed" else "Signed"),
      (if String.eqb (era_combo self) "Babbage Era"
       then "Babbage" else "Conway").
    split; [done|]. split; [done|]. split; [|split].
    + unfold tx_json_of.
      by destruct (String.eqb (era_combo self) "Babbage Era").
    + destruct (String.eqb (era_combo self) "Babbage Era") eqn:E.
      * left. by apply String.eqb_eq in E.
      * right. by apply String.eqb_neq in E.
    + destruct (is_empty (transaction_witness_set (transaction td))) eqn:E.
      * right. split; [done|]. intros f Hw.
        destruct (truthy (get_field f (transaction td))) eqn:Ht; [|done].
        assert (is_empty (transaction_witness_set (transaction td)) = false)
          as E' by (apply is_empty_false; by exists f).
        congruence.
      * left. split; [done|]. by apply is_empty_false.
  - intros td hex Hview Hpath Htd Hhex.
    unfold save_export_to_file, save_attempt.
    apply String.eqb_neq in Hview. rewrite Hview.
    apply String.eqb_neq in Hpath. rewrite Hpath, Htd, Hhex.
    apply String.eqb_neq in Hpath.
    destruct (dump_json_file _ _); eexists _, _, _; by split.
Qed.
End SavePathFacts.

(** C8 as stated fails on a witness set with an attribute that is present
    but empty: [is_empty] counts it as empty and the type is
    "Unwitnessed". *)
Lemma C8_present_but_empty_counterexample :
  vkey_witnesses
    (transaction_witness_set (sample_tx None None (Some (PyList []))))
  = Some (PyList [])
  ∧ save_export_to_file (λ _, "out.txt") (λ _, Ok "84a0") (λ _ _, Ok tt)
      sample_window
    = [ DumpJsonFile "out.txt"
          [ ("type", "Unwitnessed Tx ConwayEra");
            ("description", "Generated by Cardano Transaction Sanitizer");
            ("cborHex", "84a0") ];
        MessageInformation "Success" "Export saved to out.txt" ].
Proof. split; reflexivity. Qed.

Lemma C8_saved_json_object_witness :
  ∃ fpath data rest,
    save_export_to_file (λ _, "out.txt") (λ _, Ok "84a0") (λ _ _, Ok tt)
      sample_window
    = DumpJsonFile fpath data :: rest
    ∧ fpath ≠ "".
Proof.
  apply (proj2 (C8_saved_json_object (λ _, "out.txt") (λ _, Ok "84a0")
                  (λ _ _, Ok tt) sample_window)
           {| cbor_hex := JString "84a0";
              transaction := sample_tx None None (Some (PyList [])) |}
           "84a0");
    (reflexivity || discriminate).
Defined.

(** * Further properties of the export *)

(** ** What the export leaves alone *)

(** X1. The export changes nothing but the policy-dependent attributes:
    every other attribute of the body, the auxiliary data and the
    validity flag are those of the source. *)
Theorem export_keeps_scalars (tx : Transaction) (era : Era)
    (ct : CollectionType) :
  ∃ tx', export_to_era tx era ct = Ok tx'
    ∧ (let b := transaction_body tx in
       let b' := transaction_body tx' in
       fee b' = fee b ∧ ttl b' = ttl b ∧ withdraws b' = withdraws b
       ∧ update b' = update b
       ∧ auxiliary_data_hash b' = auxiliary_data_hash b
       ∧ validity_start b' = validity_start b ∧ mint b' = mint b
       ∧ script_data_hash b' = script_data_hash b
       ∧ network_id b' = network_id b
       ∧ collateral_return b' = collateral_return b
       ∧ total_collateral b' = total_collateral b)
    ∧ auxiliary_data tx' = auxiliary_data tx
    ∧ valid tx' = valid tx.
Proof.
  exists (exported tx era ct). split; [apply export_to_era_returns|].
  destruct era, ct; repeat split.
Qed.

Lemma field_items_falsy f tx :
  truthy (get_field f tx) = false → field_items f tx = [].
Proof.
  unfold field_items. destruct (get_field f tx) as [c|]; simpl; [|done].
  by destruct (items c).
Qed.

Lemma exported_items_nil_l ct f : exported_items ct f [] = [].
Proof. by destruct f. Qed.

(** A falsy attribute is exported without elements. *)
Lemma export_field_falsy_items tx era ct f :
  truthy (get_field f tx) = false → field_items f (exported tx era ct) = [].
Proof.
  intros Hf. unfold field_items.
  destruct (decide (era = CONWAY ∧ f = f_inputs)) as [[-> ->]|Hne].
  - unfold get_field. rewrite export_conway_inputs_falsy by done.
    by destruct ct.
  - rewrite export_field_falsy; [done..|]. intros -> ->. by apply Hne.
Qed.

Lemma exported_field_elem tx era ct f x :
  x ∈ field_items f (exported tx era ct)
  ↔ x ∈ exported_items ct f (field_items f tx).
Proof.
  destruct (truthy (get_field f tx)) eqn:Ht.
  - destruct (truthy_Some_inv _ Ht) as (c & Hc & _). rewrite Hc in Ht.
    unfold field_items.
    rewrite (export_field_truthy tx era ct f c Hc Ht), Hc.
    apply elem_of_build, class_chosen_not_set.
  - rewrite export_field_falsy_items, field_items_falsy by done.
    by rewrite exported_items_nil_l.
Qed.

(** X2. The export neither loses nor invents elements, an element being
    what iterating the attribute yields: an element is in an attribute
    of the export exactly when it is in that attribute of the source (a
    certificate: when it is the processed form of a source certificate;
    redeemers held as a map: its keys, the values of the map not being
    elements). *)
Theorem export_keeps_elements (tx : Transaction) (era : Era)
    (ct : CollectionType) (f : FieldId) :
  ∃ tx', export_to_era tx era ct = Ok tx'
    ∧ ∀ x, x ∈ field_items f tx'
           ↔ x ∈ exported_items ct f (field_items f tx).
Proof.
  exists (exported tx era ct). split; [apply export_to_era_returns|].
  intros x. apply exported_field_elem.
Qed.

(** X3. An attribute of an export that is an ordered set, plain or
    non-empty, holds no element twice; and unless the collection type is
    List, neither do the pool owners of any exported pool registration. *)
Theorem export_sets_have_no_duplicates (tx tx' : Transaction) (era : Era)
    (ct : CollectionType) :
  export_to_era tx era ct = Ok tx' →
  (∀ f l, get_field f tx' = Some (OrderedSetOf l)
          ∨ get_field f tx' = Some (NonEmptyOrderedSetOf l) →
          NoDup l)
  ∧ (ct ≠ LIST →
     ∀ pp' owners, PoolRegistration (Some pp') ∈ field_items f_certificates tx' →
                   pool_owners pp' = Some owners →
                   NoDup (items owners)).
Proof.
  rewrite export_to_era_returns. intros [= <-]. split.
  - intros f l Hl.
    destruct (truthy (get_field f tx)) eqn:Ht.
    + destruct (truthy_Some_inv _ Ht) as (c & Hc & _). rewrite Hc in Ht.
      rewrite (export_field_truthy tx era ct f c Hc Ht) in Hl.
      destruct (class_chosen era ct f); simpl in Hl;
        destruct Hl as [[= <-]|[= <-]]; apply extend_NoDup, NoDup_nil_2.
    + destruct (decide (era = CONWAY ∧ f = f_inputs)) as [[-> ->]|Hne].
      * unfold get_field in Hl, Ht.
        rewrite export_conway_inputs_falsy in Hl by done.
        destruct ct, Hl as [[=]|[=]].
      * rewrite export_field_falsy in Hl; [by destruct Hl|done|].
        intros -> ->. by apply Hne.
  - intros Hct pp' owners Hin Ho.
    apply exported_field_elem in Hin. simpl in Hin.
    apply elem_of_map in Hin as (cert & _ & Hcert).
    destruct cert as [| | |[pp|]| |]; try discriminate Hcert.
    destruct (truthy (pool_owners pp)) eqn:Ht.
    + destruct (truthy_Some_inv _ Ht) as (o & Hpo & Hne).
      rewrite (process_truthy_owners ct pp o Hpo Hne) in Hcert.
      injection Hcert as ->. simpl in Ho.
      destruct ct; try done; injection Ho as <-;
        apply extend_NoDup, NoDup_nil_2.
    + rewrite process_falsy_owners in Hcert by done.
      injection Hcert as ->. rewrite Ho in Ht. simpl in Ht.
      destruct (items owners); [apply NoDup_nil_2 | done].
Qed.

Lemma export_sets_have_no_duplicates_witness :
  NoDup [input_1]
  ∧ NoDup [key_b; key_a].
Proof.
  pose (pp := sample_pool_params (Some (PyList [key_b; key_a; key_b]))).
  pose (tx := sample_tx (Some (PyList [input_1; input_1]))
                (Some (PyList [PoolRegistration (Some pp)])) None).
  destruct (export_sets_have_no_duplicates tx (exported tx CONWAY DEFAULT)
              CONWAY DEFAULT eq_refl) as [Hsets Howners].
  split.
  - apply (Hsets f_inputs). by left.
  - apply (Howners ltac:(discriminate)
             (sample_pool_params (Some (OrderedSetOf [key_b; key_a])))
             (OrderedSetOf [key_b; key_a])); [|reflexivity].
    apply list_elem_of_In. simpl. by left.
Defined.

(** X4. An attribute of an export is never present and empty, except the
    inputs of a Conway export: it is [None] or holds an element. *)
Theorem export_present_is_nonempty (tx tx' : Transaction) (era : Era)
    (ct : CollectionType) (f : FieldId) (c : Coll (field_type f)) :
  export_to_era tx era ct = Ok tx' →
  get_field f tx' = Some c →
  (era = CONWAY → f ≠ f_inputs) →
  items c ≠ [].
Proof.
  rewrite export_to_era_returns. intros [= <-] Hc Hne.
  destruct (truthy (get_field f tx)) eqn:Ht.
  - destruct (truthy_Some_inv _ Ht) as (c0 & Hc0 & Hne0). rewrite Hc0 in Ht.
    rewrite (export_field_truthy tx era ct f c0 Hc0 Ht) in Hc.
    injection Hc as <-. intros Hnil. apply Hne0.
    apply (exported_items_nil ct f), (build_items_nil (class_chosen era ct f));
      [apply class_chosen_not_set | done].
  - by rewrite export_field_falsy in Hc.
Qed.

Lemma export_present_is_nonempty_witness :
  items (PyList [witness_1]) ≠ [].
Proof.
  pose (tx := sample_tx (Some (PyList [])) None
                (Some (NonEmptyOrderedSetOf [witness_1]))).
  apply (export_present_is_nonempty tx (exported tx BABBAGE DEFAULT)
           BABBAGE DEFAULT f_vkey_witnesses (PyList [witness_1]));
    [reflexivity | reflexivity | discriminate].
Defined.

(** ** How the collection types relate *)

Lemma process_default_is_set cert :
  process_certificate DEFAULT cert = process_certificate SET cert.
Proof. by destruct cert. Qed.

(** X5. For Conway the default collection type is Set: the two exports
    of any transaction are the same transaction. *)
Theorem conway_default_is_set (tx : Transaction) :
  export_to_era tx CONWAY DEFAULT = export_to_era tx CONWAY SET.
Proof. reflexivity. Qed.

(** X6. For Babbage the default collection type is a mixture: the
    witness set is exported as under List; inputs, collateral, required
    signers and reference inputs as under Set; and the certificates are a
    [list] as under List whose pool registrations carry their owners as
    an ordered set as under Set. *)
Theorem babbage_default_is_mixed (tx : Transaction) :
  ∃ d l s,
    export_to_era tx BABBAGE DEFAULT = Ok d
    ∧ export_to_era tx BABBAGE LIST = Ok l
    ∧ export_to_era tx BABBAGE SET = Ok s
    ∧ transaction_witness_set d = transaction_witness_set l
    ∧ (∀ f, f ∈ [f_inputs; f_collateral; f_required_signers;
                 f_reference_inputs] →
            get_field f d = get_field f s)
    ∧ repr_of_field (get_field f_certificates d)
      = repr_of_field (get_field f_certificates l)
    ∧ field_items f_certificates d
      = map (process_certificate SET)
          (field_items f_certificates tx).
Proof.
  exists (exported tx BABBAGE DEFAULT), (exported tx BABBAGE LIST),
    (exported tx BABBAGE SET).
  split; [done|]. split; [done|]. split; [done|]. split; [done|].
  split; [|split].
  - intros f Hf. apply list_elem_of_In in Hf. simpl in Hf.
    destruct Hf as [<-|[<-|[<-|[<-|[]]]]]; reflexivity.
  - destruct tx as [[] ? ? ?]. simpl. unfold if_truthy.
    destruct certificates0 as [c|]; [|done].
    by destruct (truthy (Some c)).
  - destruct tx as [[] ? ? ?]. unfold field_items. simpl. unfold if_truthy.
    destruct certificates0 as [c|]; [|done].
    destruct (truthy (Some c)) eqn:Ht; simpl.
    + unfold process_certificates. rewrite Ht. simpl.
      apply map_ext. intros cert. apply process_default_is_set.
    + simpl in Ht. by destruct (items c).
Qed.

(** ** Certificates: number and order *)

Lemma extend_length {A} `{EqDecision A} (l : list A) :
  ∀ acc, (List.length (extend acc l) ≤ List.length acc + List.length l)%nat.
Proof.
  induction l as [|x l IH]; intros acc; simpl; [lia|].
  etrans; [apply IH|]. unfold append. case_decide.
  - lia.
  - rewrite length_app. simpl. lia.
Qed.

(** X7. The export never adds a certificate: the exported certificates
    are at most as many as the source certificates.  When they are
    exported as a [list] (collection type List, or Default for Babbage)
    they are as many, and the certificate at every position is the
    processed form of the source certificate at that position. *)
Theorem export_certificates_count (tx : Transaction) (era : Era)
    (ct : CollectionType) (c : Coll Certificate) :
  certificates (transaction_body tx) = Some c →
  items c ≠ [] →
  ∃ tx' c',
    export_to_era tx era ct = Ok tx'
    ∧ certificates (transaction_body tx') = Some c'
    ∧ (List.length (items c') ≤ List.length (items c))%nat
    ∧ (ct = LIST ∨ (era = BABBAGE ∧ ct = DEFAULT) →
       List.length (items c') = List.length (items c)
       ∧ ∀ i, items c' !! i = process_certificate ct <$> items c !! i).
Proof.
  intros Hc Hne.
  assert (truthy (Some c) = true) as Ht by (simpl; by destruct (items c)).
  pose proof (export_field_truthy tx era ct f_certificates c Hc Ht) as Hexp.
  eexists (exported tx era ct), _.
  split; [apply export_to_era_returns|]. split; [exact Hexp|]. split.
  - simpl exported_items.
    destruct (class_chosen era ct f_certificates); simpl;
      rewrite <- (length_map (process_certificate ct) (items c));
      try done; try apply (extend_length _ []). lia.
  - intros Hlist.
    assert (class_chosen era ct f_certificates = RList) as ->.
    { destruct Hlist as [->|[-> ->]]; [by destruct era | done]. }
    simpl. split; [apply length_map|].
    intros i. rewrite <- list_lookup_fmap. done.
Qed.

Lemma export_certificates_count_witness :
  ∃ tx' c',
    export_to_era
      (sample_tx None
         (Some (PyList [StakeRegistration [x01]; StakeRegistration [x01]]))
         None)
      CONWAY SET = Ok tx'
    ∧ certificates (transaction_body tx') = Some c'
    ∧ (List.length (items c') ≤ 2)%nat.
Proof.
  destruct (export_certificates_count
              (sample_tx None
                 (Some (PyList [StakeRegistration [x01];
                                StakeRegistration [x01]])) None)
              CONWAY SET
              (PyList [StakeRegistration [x01]; StakeRegistration [x01]]))
    as (tx' & c' & Hexp & Hc' & Hlen & _); [reflexivity | discriminate |].
  by exists tx', c'.
Defined.

(** Under Set two source certificates that are processed to the same
    certificate are exported once. *)
Example set_merges_equal_certificates :
  export_to_era
    (sample_tx None
       (Some (PyList
          [PoolRegistration (Some (sample_pool_params (Some (PyList [key_a]))));
           PoolRegistration
             (Some (sample_pool_params (Some (PyList [key_a; key_a]))))]))
       None)
    BABBAGE SET
  = Ok (sample_tx None
          (Some (NonEmptyOrderedSetOf
             [PoolRegistration
                (Some (sample_pool_params (Some (OrderedSetOf [key_a]))))]))
          None).
Proof. reflexivity. Qed.

(** ** Exporting an export, in general *)

(** X8. Every export is a fixed point of its own era and collection
    type, for List and Set as for Default. *)
Theorem export_idempotent (tx : Transaction) (era : Era)
    (ct : CollectionType) :
  ∃ tx1, export_to_era tx era ct = Ok tx1
         ∧ export_to_era tx1 era ct = Ok tx1.
Proof.
  exists (exported tx era ct). split; [apply export_to_era_returns|].
  by rewrite export_to_era_returns, exported_idem.
Qed.

Lemma extend_app {A} `{EqDecision A} (l1 l2 : list A) :
  ∀ acc, extend acc (l1 ++ l2) = extend (extend acc l1) l2.
Proof. induction l1 as [|x l1 IH]; intros acc; simpl; [done|apply IH]. Qed.

Section ExtendMap.
Context {A B : Type} `{EqDecision A} `{EqDecision B}.

(** Dropping repetitions before mapping changes nothing once they are
    dropped after mapping. *)
Lemma extend_map_extend (g : A → B) (l : list A) :
  ∀ acc, extend [] (map g (extend acc l))
         = extend (extend [] (map g acc)) (map g l).
Proof.
  induction l as [|x l IH]; intros acc; simpl; [done|].
  rewrite IH. f_equal. destruct (decide (x ∈ acc)) as [Hin|Hin].
  - replace (append acc x) with acc by (unfold append; by rewrite decide_True).
    unfold append. rewrite decide_True; [done|].
    apply extend_elem. right. apply elem_of_map. by exists x.
  - replace (append acc x) with (acc ++ [x])
      by (unfold append; by rewrite decide_False).
    by rewrite List.map_app, extend_app.
Qed.

Lemma extend_map_dedup (g : A → B) (l : list A) :
  extend [] (map g (extend [] l)) = extend [] (map g l).
Proof. apply (extend_map_extend g l []). Qed.
End ExtendMap.

Lemma build_compose {A} `{EqDecision A} (r1 r2 : Repr) (g1 g2 : A → A)
    (l : list A) :
  (r1 ≠ RList → r2 ≠ RList) →
  r1 ≠ RSet → r2 ≠ RSet → r1 ≠ RDict → r2 ≠ RDict →
  (∀ x, g2 (g1 x) = g2 x) →
  build r2 (map g2 (items (build r1 (map g1 l)))) = build r2 (map g2 l).
Proof.
  intros Hr H1 H2 H3 H4 Hg.
  assert (map g2 (map g1 l) = map g2 l) as Hmap.
  { rewrite map_map. by apply map_ext. }
  destruct r1; try done; simpl items.
  - by rewrite Hmap.
  - destruct r2; try done; [by destruct Hr|..]; simpl;
      by rewrite extend_map_dedup, Hmap.
  - destruct r2; try done; [by destruct Hr|..]; simpl;
      by rewrite extend_map_dedup, Hmap.
Qed.

Lemma exported_items_compose c1 c2 f r1 r2 (l : list (field_type f)) :
  (r1 ≠ RList → r2 ≠ RList) →
  r1 ≠ RSet → r2 ≠ RSet → r1 ≠ RDict → r2 ≠ RDict →
  (∀ cert, process_certificate c2 (process_certificate c1 cert)
           = process_certificate c2 cert) →
  build r2 (exported_items c2 f (items (build r1 (exported_items c1 f l))))
  = build r2 (exported_items c2 f l).
Proof.
  intros Hr H1 H2 H3 H4 Hp.
  destruct f; simpl exported_items;
    try (rewrite <- (map_id l) at 2; rewrite <- (map_id l) at 1;
         rewrite <- (map_id (items _));
         by apply build_compose).
  by apply build_compose.
Qed.

Lemma exported_truthy_falsy tx era ct f :
  truthy (get_field f tx) = false →
  truthy (get_field f (exported tx era ct)) = false.
Proof.
  intros Hf.
  destruct (decide (era = CONWAY ∧ f = f_inputs)) as [[-> ->]|Hne].
  - unfold get_field in *. rewrite export_conway_inputs_falsy by done.
    by destruct ct.
  - rewrite export_field_falsy; [done..|]. intros -> ->. by apply Hne.
Qed.

(** Falsy attributes are exported alike, whatever they were. *)
Lemma export_field_falsy_alike tx1 tx2 era ct f :
  truthy (get_field f tx1) = false →
  truthy (get_field f tx2) = false →
  get_field f (exported tx1 era ct) = get_field f (exported tx2 era ct).
Proof.
  intros H1 H2.
  destruct (decide (era = CONWAY ∧ f = f_inputs)) as [[-> ->]|Hne].
  - unfold get_field in *. by rewrite !export_conway_inputs_falsy.
  - assert (era = CONWAY → f ≠ f_inputs) as Hne'
      by (intros -> ->; by apply Hne).
    by rewrite !export_field_falsy.
Qed.

Lemma exported_field_compose tx e1 c1 e2 c2 f :
  (class_chosen e1 c1 f ≠ RList → class_chosen e2 c2 f ≠ RList) →
  (∀ cert, process_certificate c2 (process_certificate c1 cert)
           = process_certificate c2 cert) →
  get_field f (exported (exported tx e1 c1) e2 c2)
  = get_field f (exported tx e2 c2).
Proof.
  intros Hr Hp. destruct (truthy (get_field f tx)) eqn:Ht.
  - destruct (truthy_Some_inv _ Ht) as (c & Hc & Hne). rewrite Hc in Ht.
    pose proof (export_field_truthy tx e1 c1 f c Hc Ht) as H1.
    rewrite (export_field_truthy _ e2 c2 f _ H1).
    + rewrite (export_field_truthy tx e2 c2 f c Hc Ht). f_equal.
      apply exported_items_compose;
        auto using class_chosen_not_set, class_chosen_not_dict.
    + apply build_truthy; [apply class_chosen_not_set|].
      intros Hnil. by apply exported_items_nil in Hnil.
  - apply export_field_falsy_alike; [|done].
    by apply exported_truthy_falsy.
Qed.

Lemma exported_compose tx e1 c1 e2 c2 :
  (∀ f, class_chosen e1 c1 f ≠ RList → class_chosen e2 c2 f ≠ RList) →
  (∀ cert, process_certificate c2 (process_certificate c1 cert)
           = process_certificate c2 cert) →
  exported (exported tx e1 c1) e2 c2 = exported tx e2 c2.
Proof.
  intros Hr Hp.
  pose proof (λ f, exported_field_compose tx e1 c1 e2 c2 f (Hr f) Hp) as H.
  clear Hr Hp.
  destruct tx as [b w a v]. destruct b, w.
  destruct e1, c1, e2, c2.
  all: unfold exported, _export_babbage, _export_conway; f_equal.
  all: unfold _build_babbage_transaction_body, _build_conway_transaction_body,
         _build_babbage_witness_set, _build_conway_witness_set,
         witness_set_with; cbn; f_equal.
  all: first [ exact (H f_inputs) | exact (H f_certificates)
             | exact (H f_collateral) | exact (H f_required_signers)
             | exact (H f_reference_inputs) | exact (H f_vkey_witnesses)
             | exact (H f_native_scripts) | exact (H f_bootstrap_witness)
             | exact (H f_plutus_v1_script) | exact (H f_plutus_v2_script)
             | exact (H f_plutus_v3_script) | exact (H f_plutus_data)
             | exact (H f_redeemer) ].
Qed.

(** Processing after List processing is processing. *)
Lemma process_after_list ct cert :
  process_certificate ct (process_certificate LIST cert)
  = process_certificate ct cert.
Proof.
  destruct cert as [| | |[pp|]| |]; try done.
  destruct (truthy (pool_owners pp)) eqn:Ht.
  - destruct (truthy_Some_inv _ Ht) as (owners & Ho & Hne).
    rewrite (process_truthy_owners LIST pp owners Ho Hne).
    rewrite (process_truthy_owners ct pp owners Ho Hne).
    by erewrite (process_truthy_owners ct _ (PyList (items owners))).
  - by rewrite (process_falsy_owners LIST).
Qed.

Lemma class_list era f : class_chosen era LIST f = RList.
Proof. by destruct era, f. Qed.

(** X9. A List export has lost nothing: exporting it again, with any era
    and collection type, gives what exporting the source with that era
    and collection type gives. *)
Theorem export_after_list (tx : Transaction) (e1 e2 : Era)
    (ct : CollectionType) :
  ∃ l tx', export_to_era tx e1 LIST = Ok l
           ∧ export_to_era l e2 ct = Ok tx'
           ∧ export_to_era tx e2 ct = Ok tx'.
Proof.
  exists (exported tx e1 LIST), (exported tx e2 ct).
  split; [apply export_to_era_returns|]. split; [|apply export_to_era_returns].
  rewrite export_to_era_returns. f_equal. apply exported_compose.
  - intros f Hf. by rewrite class_list in Hf.
  - intros cert. apply process_after_list.
Qed.

(** X10. Fixing the collection type, a Conway export of a Babbage export
    is the Conway export of the source; under Set the same holds with
    the eras exchanged.  Under Default it does not: a Babbage export of
    a Conway export can differ from the Babbage export of the source. *)
Theorem export_across_eras (tx : Transaction) (ct : CollectionType) :
  (∃ b c, export_to_era tx BABBAGE ct = Ok b
          ∧ export_to_era b CONWAY ct = Ok c
          ∧ export_to_era tx CONWAY ct = Ok c)
  ∧ (∃ c b, export_to_era tx CONWAY SET = Ok c
            ∧ export_to_era c BABBAGE SET = Ok b
            ∧ export_to_era tx BABBAGE SET = Ok b)
  ∧ (∃ tx0 c b b0,
       export_to_era tx0 CONWAY DEFAULT = Ok c
       ∧ export_to_era c BABBAGE DEFAULT = Ok b
       ∧ export_to_era tx0 BABBAGE DEFAULT = Ok b0
       ∧ b ≠ b0).
Proof.
  split; [|split].
  - exists (exported tx BABBAGE ct), (exported tx CONWAY ct).
    split; [done|]. split; [|done].
    rewrite export_to_era_returns. f_equal. apply exported_compose.
    + intros f. by destruct ct, f.
    + apply process_certificate_idem.
  - exists (exported tx CONWAY SET), (exported tx BABBAGE SET).
    split; [done|]. split; [|done].
    rewrite export_to_era_returns. f_equal. apply exported_compose.
    + intros f. by destruct f.
    + apply process_certificate_idem.
  - pose (tx0 := sample_tx None None (Some (PyList [witness_1; witness_1]))).
    exists tx0, (exported tx0 CONWAY DEFAULT),
      (exported (exported tx0 CONWAY DEFAULT) BABBAGE DEFAULT),
      (exported tx0 BABBAGE DEFAULT).
    split; [done|]. split; [done|]. split; [done|]. discriminate.
Qed.

(** * Further properties of the parser *)

Lemma ascii_lower_idem c : ascii_lower (ascii_lower c) = ascii_lower c.
Proof. destruct c as [[] [] [] [] [] [] [] []]; reflexivity. Qed.

Lemma lower_idem s : lower (lower s) = lower s.
Proof.
  induction s as [|c s IH]; simpl; [done|]. by rewrite ascii_lower_idem, IH.
Qed.

Lemma unhex_two c1 c2 rest :
  unhex (String c1 (String c2 rest))
  = match hex_value c1, hex_value c2, unhex rest with
    | Some h, Some l, Some bs =>
        option_map (λ b, b :: bs) (Byte.of_nat (16 * h + l))
    | _, _, _ => None
    end.
Proof. reflexivity. Qed.

Lemma bytes_hex_cons b bs :
  bytes_hex (b :: bs)
  = String (hex_digit (Byte.to_nat b / 16))
      (String (hex_digit (Byte.to_nat b mod 16)) (bytes_hex bs)).
Proof. reflexivity. Qed.

(** [bytes_hex] can be read back: it loses nothing. *)
Lemma bytes_unhex bs : unhex (bytes_hex bs) = Some bs.
Proof.
  induction bs as [|b bs IH]; [done|].
  rewrite bytes_hex_cons, unhex_two, IH. destruct b; reflexivity.
Qed.

Lemma bytes_hex_length bs :
  String.length (bytes_hex bs) = 2 * List.length bs.
Proof.
  induction bs as [|b bs IH]; [done|].
  rewrite bytes_hex_cons. cbn [String.length List.length]. rewrite IH. lia.
Qed.

Section ParserFacts.
Variable is_file : string → bool.
Variable read_text : string → Exc string.
Variable json_loads : string → Exc JSON.
Variable fromhex : string → Exc bytes.
Variable from_cbor : bytes → Exc Transaction.
Variable str_transaction : Transaction → Exc string.
Variable to_cbor : Transaction → Exc bytes.

Local Abbreviation parse_json :=
  (parse_from_json is_file read_text json_loads fromhex from_cbor).
Local Abbreviation parse_hex := (parse_from_cbor_hex fromhex from_cbor).
Local Abbreviation export := (export_transaction str_transaction to_cbor).

(** X11. [parse_from_cbor_hex] either stores and returns the
    transaction the bytes decode to, or raises a [ValueError] starting
    with "Invalid CBOR hex or transaction format: " that carries the text
    of the failure of [bytes.fromhex] or of the decoder, and leaves the
    parser as it was. *)
Theorem parse_from_cbor_hex_all_or_nothing (hex : string)
    (self : TransactionParser) :
  (∃ b tx,
     fromhex hex = Ok b ∧ from_cbor b = Ok tx
     ∧ parse_hex hex self
       = (Ok {| cbor_hex := JString hex; transaction := tx |},
          {| transaction_data :=
               Some {| cbor_hex := JString hex; transaction := tx |} |}))
  ∨ (∃ e,
       (fromhex hex = Raise e ∨ ∃ b, fromhex hex = Ok b ∧ from_cbor b = Raise e)
       ∧ parse_hex hex self
         = (Raise (ValueError
                     ("Invalid CBOR hex or transaction format: "
                      +:+ str_exn e)),
            self)).
Proof.
  unfold parse_from_cbor_hex, m_bind, m_lift, m_ret, set_transaction_data,
    TransactionData_init, _parse_transaction, try_except, bind, bytes_fromhex.
  destruct (fromhex hex) as [b|e] eqn:Hhex.
  - destruct (from_cbor b) as [tx|e] eqn:Hcbor.
    + left. by exists b, tx.
    + right. exists e. split; [|done]. right. by exists b.
  - right. exists e. split; [by left | done].
Qed.

(** X12. Before anything is parsed every export request raises
    "No transaction data to export. Parse a transaction first.",
    whatever the format, supported or not, and the parser stays as it
    was. *)
Theorem export_before_parse (self : TransactionParser) (era : Era)
    (ct : CollectionType) (output_format : string) :
  transaction_data self = None →
  export era ct output_format self
  = (Raise (ValueError
              "No transaction data to export. Parse a transaction first."),
     self).
Proof.
  intros Hnone. unfold export_transaction, m_bind, get_exporter.
  by rewrite Hnone.
Qed.

Lemma export_unchanged_parser era ct output_format self :
  (export era ct output_format self).2 = self.
Proof.
  unfold export_transaction, m_bind, get_exporter, m_lift, m_ret, m_raise.
  destruct (transaction_data self) as [td|]; [|done].
  repeat case_match; simplify_eq; done.
Qed.

(** X13. [export_transaction] never changes the parser; it matches the
    format without regard to case; and with a transaction loaded an
    unsupported format raises "Unsupported output format: " followed by
    the format as it was given. *)
Theorem export_format_dispatch (self : TransactionParser) (era : Era)
    (ct : CollectionType) (output_format : string) :
  (export era ct output_format self).2 = self
  ∧ (lower output_format ∈ supported_formats →
     export era ct output_format self
     = export era ct (lower output_format) self)
  ∧ (∀ td, transaction_data self = Some td →
           lower output_format ∉ supported_formats →
           export era ct output_format self
           = (Raise (ValueError
                       ("Unsupported output format: " +:+ output_format)),
              self)).
Proof.
  split; [apply export_unchanged_parser|]. split.
  - intros Hin. unfold export_transaction. rewrite lower_idem.
    destruct (String.eqb (lower output_format) "json") eqn:E1; [done|].
    destruct (String.eqb (lower output_format) "cbor") eqn:E2; [done|].
    destruct (String.eqb (lower output_format) "hex") eqn:E3; [done|].
    apply String.eqb_neq in E1, E2, E3.
    apply list_elem_of_In in Hin. simpl in Hin.
    by destruct Hin as [?|[?|[?|[]]]].
  - intros td Htd Hfmt.
    unfold export_transaction, m_bind, get_exporter, m_raise.
    rewrite Htd.
    assert (∀ s, s ∈ supported_formats →
                 String.eqb (lower output_format) s = false) as Hneq.
    { intros s Hs. apply String.eqb_neq. intros Heq. apply Hfmt.
      by rewrite Heq. }
    rewrite !Hneq; [done|..]; apply list_elem_of_In; simpl; auto.
Qed.

(** X14. The hex export is the hex form of the CBOR export: when the
    CBOR export returns bytes, the hex export returns two lowercase
    hexadecimal digits per byte, from which the bytes can be read back;
    when the CBOR export raises, the hex export raises the same. *)
Theorem export_hex_is_hex_of_cbor (self : TransactionParser) (era : Era)
    (ct : CollectionType) :
  match (export era ct "cbor" self).1 with
  | Ok (ExportedBytes b) =>
      export era ct "hex" self = (Ok (ExportedStr (bytes_hex b)), self)
      ∧ String.length (bytes_hex b) = 2 * List.length b
      ∧ unhex (bytes_hex b) = Some b
  | Ok (ExportedStr _) => False
  | Raise e => export era ct "hex" self = (Raise e, self)
  end.
Proof.
  unfold export_transaction, m_bind, get_exporter, m_lift, m_ret.
  destruct (transaction_data self) as [td|]; [|done]. simpl.
  unfold export_to_hex, bind.
  destruct (export_to_cbor to_cbor (transaction td) era ct) as [b|e]; [|done].
  split; [done|]. split; [apply bytes_hex_length | apply bytes_unhex].
Qed.

(** X15. Round trip through the parser: if the codec reads back what it
    wrote for an export (the hex text decodes to the bytes, the bytes to
    the exported transaction), then parsing the hex export stores a
    transaction whose hex export, with the same era and collection type,
    is that same hex text. *)
Theorem export_parse_round_trip (self : TransactionParser) (era : Era)
    (ct : CollectionType) (td : TransactionData) (tx1 : Transaction)
    (b : bytes) :
  transaction_data self = Some td →
  export_to_era (transaction td) era ct = Ok tx1 →
  to_cbor tx1 = Ok b →
  fromhex (bytes_hex b) = Ok b →
  from_cbor b = Ok tx1 →
  ∃ td1,
    export era ct "hex" self = (Ok (ExportedStr (bytes_hex b)), self)
    ∧ parse_hex (bytes_hex b) self
      = (Ok td1, {| transaction_data := Some td1 |})
    ∧ transaction td1 = tx1
    ∧ export era ct "hex" {| transaction_data := Some td1 |}
      = (Ok (ExportedStr (bytes_hex b)), {| transaction_data := Some td1 |}).
Proof.
  intros Htd Hexp Hcbor Hhex Hdec.
  exists {| cbor_hex := JString (bytes_hex b); transaction := tx1 |}.
  rewrite export_to_era_returns in Hexp. injection Hexp as Hexp.
  split; [|split; [|split]].
  - unfold export_transaction, m_bind, get_exporter, m_lift, m_ret.
    rewrite Htd. simpl. unfold export_to_hex, export_to_cbor, bind.
    by rewrite export_to_era_returns, Hexp, Hcbor.
  - unfold parse_from_cbor_hex, m_bind, m_lift, m_ret, set_transaction_data,
      TransactionData_init, _parse_transaction, try_except, bind,
      bytes_fromhex.
    by rewrite Hhex, Hdec.
  - done.
  - unfold export_transaction, m_bind, get_exporter, m_lift, m_ret. simpl.
    unfold export_to_hex, export_to_cbor, bind.
    rewrite export_to_era_returns, <- Hexp, exported_idem, Hexp.
    by rewrite Hcbor.
Qed.

(** X16. A JSON document that is not an object never loads, even when
    it contains the text [cborHex] (as a list element or inside a
    string); neither does an object whose [cborHex] member is not a
    string.  Both end in the "Failed to parse JSON file: " error with the
    parser unchanged. *)
Theorem parse_from_json_needs_object (path : string)
    (self : TransactionParser) (data : JSON) :
  load_json_file is_file read_text json_loads path = Ok data →
  ((∀ members, data ≠ JObject members) →
   ∃ msg, parse_json path self
          = (Raise (ValueError ("Failed to parse JSON file: " +:+ msg)),
             self))
  ∧ (∀ members v, data = JObject members →
                  dict_get members "cborHex" = Some v →
                  (∀ s, v ≠ JString s) →
     ∃ msg, parse_json path self
            = (Raise (ValueError
                        ("Failed to parse JSON file: "
                         +:+ "Invalid CBOR hex or transaction format: "
                         +:+ msg)),
               self)).
Proof.
  intros Hload.
  unfold parse_from_json, m_try, m_bind, m_lift, m_raise, m_ret,
    set_transaction_data.
  rewrite Hload. split.
  - intros Hobj. destruct data as [| | | s | l | m]; simpl.
    + by eexists.
    + by eexists.
    + by eexists.
    + destruct (String.index 0 "cborHex" s); simpl; by eexists.
    + destruct (existsb (eq_str "cborHex") l); simpl; by eexists.
    + by destruct (Hobj m).
  - intros members v -> Hget Hstr. simpl. rewrite Hget. simpl.
    unfold TransactionData_init, _parse_transaction, try_except, bind,
      bytes_fromhex.
    destruct v; simpl; try by eexists. by destruct (Hstr s).
Qed.
End ParserFacts.

Lemma export_before_parse_witness :
  export_transaction (λ _, Ok "tx") (λ _, Ok [x84]) CONWAY SET "yaml"
    TransactionParser_init
  = (Raise (ValueError
              "No transaction data to export. Parse a transaction first."),
     TransactionParser_init).
Proof.
  apply (export_before_parse (λ _, Ok "tx") (λ _, Ok [x84])
           TransactionParser_init CONWAY SET "yaml").
  reflexivity.
Defined.

Lemma export_format_dispatch_witness :
  let self := {| transaction_data :=
                   Some {| cbor_hex := JString "84";
                           transaction := sample_tx None None None |} |} in
  export_transaction (λ _, Ok "tx") (λ _, Ok [x84]) CONWAY SET "HeX" self
  = export_transaction (λ _, Ok "tx") (λ _, Ok [x84]) CONWAY SET "hex" self
  ∧ export_transaction (λ _, Ok "tx") (λ _, Ok [x84]) CONWAY SET "Yaml" self
    = (Raise (ValueError "Unsupported output format: Yaml"), self).
Proof.
  intros self. split.
  - apply (export_format_dispatch (λ _, Ok "tx") (λ _, Ok [x84])
             self CONWAY SET "HeX").
    apply list_elem_of_In. simpl. auto.
  - apply (proj2 (proj2 (export_format_dispatch (λ _, Ok "tx") (λ _, Ok [x84])
                           self CONWAY SET "Yaml"))
             {| cbor_hex := JString "84";
                transaction := sample_tx None None None |}); [reflexivity|].
    intros Hin. apply list_elem_of_In in Hin. simpl in Hin.
    by destruct Hin as [?|[?|[?|[]]]].
Defined.

Lemma export_parse_round_trip_witness :
  let tx1 := exported (sample_tx (Some (PyList [input_1; input_1])) None None)
               CONWAY DEFAULT in
  let self := {| transaction_data :=
                   Some {| cbor_hex := JString "00";
                           transaction :=
                             sample_tx (Some (PyList [input_1; input_1]))
                               None None |} |} in
  ∃ td1,
    export_transaction (λ _, Ok "tx") (λ _, Ok [x84; xa0]) CONWAY DEFAULT
      "hex" self = (Ok (ExportedStr "84a0"), self)
    ∧ parse_from_cbor_hex (λ _, Ok [x84; xa0]) (λ _, Ok tx1) "84a0" self
      = (Ok td1, {| transaction_data := Some td1 |})
    ∧ transaction td1 = tx1
    ∧ export_transaction (λ _, Ok "tx") (λ _, Ok [x84; xa0]) CONWAY DEFAULT
        "hex" {| transaction_data := Some td1 |}
      = (Ok (ExportedStr "84a0"), {| transaction_data := Some td1 |}).
Proof.
  intros tx1 self.
  apply (export_parse_round_trip (λ _, Ok [x84; xa0]) (λ _, Ok tx1)
           (λ _, Ok "tx") (λ _, Ok [x84; xa0]) self CONWAY DEFAULT
           {| cbor_hex := JString "00";
              transaction :=
                sample_tx (Some (PyList [input_1; input_1])) None None |}
           tx1 [x84; xa0]); reflexivity.
Defined.

Lemma parse_from_json_needs_object_witness :
  ∃ msg,
    parse_from_json (λ _, true) (λ _, Ok "[]")
      (λ _, Ok (JArray [JString "cborHex"])) (λ _, Ok [x84])
      (λ _, Ok (sample_tx None None None)) "tx.json" TransactionParser_init
    = (Raise (ValueError ("Failed to parse JSON file: " +:+ msg)),
       TransactionParser_init).
Proof.
  apply (proj1 (parse_from_json_needs_object (λ _, true) (λ _, Ok "[]")
                  (λ _, Ok (JArray [JString "cborHex"])) (λ _, Ok [x84])
                  (λ _, Ok (sample_tx None None None)) "tx.json"
                  TransactionParser_init (JArray [JString "cborHex"])
                  eq_refl)).
  intros members. discriminate.
Defined.

(** * Properties of the window *)

Section WindowFacts.
Variable is_file : string → bool.
Variable read_text : string → Exc string.
Variable json_loads : string → Exc JSON.
Variable fromhex : string → Exc bytes.
Variable from_cbor : bytes → Exc Transaction.
Variable str_transaction : Transaction → Exc string.
Variable to_cbor : Transaction → Exc bytes.
Variable str_bytes : bytes → string.
Variable getSaveFileName : string → string.
Variable to_cbor_hex : Transaction → Exc string.
Variable dump_json_file : string → list (string * string) → Exc unit.

Local Abbreviation parse_json :=
  (parse_from_json is_file read_text json_loads fromhex from_cbor).
Local Abbreviation load_into :=
  (parse_json_file is_file read_text json_loads fromhex from_cbor
     str_transaction).
Local Abbreviation export_from :=
  (window_export_transaction str_transaction to_cbor str_bytes).
Local Abbreviation save :=
  (save_export_to_file getSaveFileName to_cbor_hex dump_json_file).

Lemma view_transaction_core w :
  core (view_transaction str_transaction w).1 = core w
  ∧ file_label (view_transaction str_transaction w).1 = file_label w
  ∧ view_button (view_transaction str_transaction w).1 = view_button w
  ∧ export_button (view_transaction str_transaction w).1 = export_button w
  ∧ save_button (view_transaction str_transaction w).1 = save_button w.
Proof.
  unfold view_transaction.
  destruct (window_transaction_data (core w)) as [td|]; [|done].
  by destruct (str_transaction (transaction td)).
Qed.

Lemma window_export_attempt_parser w :
  (window_export_attempt str_transaction to_cbor w).2 = parser (core w).
Proof.
  unfold window_export_attempt.
  destruct (CollectionType_by_name _); [|done].
  destruct (String.eqb _ "json"); apply export_unchanged_parser.
Qed.

(** X17. A load either succeeds: the window and the parser hold the
    parsed transaction, the view and export buttons are enabled, and the
    save button and the export view stay as they were; or it fails: the
    one message shown repeats the prefix "Failed to parse JSON file: "
    (the parser's message is prefixed again), the three buttons are
    disabled, and the transaction loaded before, the parser, the export
    view and the transaction view stay as they were. *)
Theorem window_load_outcome (w : Window) (path : string) :
  (∃ td rest,
     parse_json path (parser (core w))
     = (Ok td, {| transaction_data := Some td |})
     ∧ window_transaction_data (core (load_into w path).1) = Some td
     ∧ parser (core (load_into w path).1) = {| transaction_data := Some td |}
     ∧ file_label (load_into w path).1 = "File: " +:+ path
     ∧ view_button (load_into w path).1 = true
     ∧ export_button (load_into w path).1 = true
     ∧ save_button (load_into w path).1 = save_button w
     ∧ export_view (core (load_into w path).1) = export_view (core w)
     ∧ (load_into w path).2
       = MessageInformation "Success" "Transaction parsed successfully!"
         :: rest)
  ∨ (∃ msg,
       (load_into w path).2
       = [MessageCritical "Error"
            ("Failed to parse JSON file: " +:+ "Failed to parse JSON file: "
             +:+ msg)]
       ∧ core (load_into w path).1 = core w
       ∧ file_label (load_into w path).1 = "No file selected"
       ∧ view_button (load_into w path).1 = false
       ∧ export_button (load_into w path).1 = false
       ∧ save_button (load_into w path).1 = false
       ∧ transaction_view (load_into w path).1 = transaction_view w).
Proof.
  unfold parse_json_file.
  destruct (parse_from_json_cases is_file read_text json_loads fromhex
              from_cbor path (parser (core w)))
    as [(data & v & td & _ & _ & _ & _ & Hp)|(e & Hp & _)]; rewrite Hp.
  - left.
    match goal with
    | |- context [view_transaction str_transaction ?l] =>
        pose proof (view_transaction_core l) as (Hc & Hl & Hv & He & Hs);
        destruct (view_transaction str_transaction l) as [viewed events]
    end.
    simpl in *. exists td, events. rewrite Hc, Hl, Hv, He, Hs. done.
  - right. exists (str_exn e). simpl. split; [done|].
    split; [by destruct w as [[] ? ? ? ? ? ?]|done].
Qed.

(** X18. The window and its parser always hold the same transaction
    data: this is so at start-up, and loading and exporting keep it so. *)
Theorem window_stays_in_sync :
  window_in_sync Window_init
  ∧ (∀ w path, window_in_sync w → window_in_sync (load_into w path).1)
  ∧ (∀ w, window_in_sync w → window_in_sync (export_from w).1).
Proof.
  split; [done|]. split.
  - intros w path Hsync. unfold window_in_sync, parse_json_file in *.
    destruct (parse_from_json_cases is_file read_text json_loads fromhex
                from_cbor path (parser (core w)))
      as [(data & v & td & _ & _ & _ & _ & Hp)|(e & Hp & _)]; rewrite Hp.
    + match goal with
      | |- context [view_transaction str_transaction ?l] =>
          pose proof (view_transaction_core l) as (Hc & _);
          destruct (view_transaction str_transaction l) as [viewed events]
      end.
      simpl in *. by rewrite Hc.
    + done.
  - intros w Hsync. unfold window_in_sync, window_export_transaction in *.
    destruct (window_transaction_data (core w)) as [td|] eqn:Htd;
      [|simpl; congruence].
    pose proof (window_export_attempt_parser w) as Hp.
    destruct (window_export_attempt str_transaction to_cbor w) as [[x|e] p'];
      simpl in *; subst p'; congruence.
Qed.

(** X19. Loading another file does not renew the export: after a
    successful load the export view still shows what it showed, yet
    whatever the save path then dumps carries the hex form of the
    transaction just loaded. *)
Theorem save_after_load_writes_loaded (w : Window) (path : string)
    (td : TransactionData) (fpath : string) (data : list (string * string)) :
  (parse_json path (parser (core w))).1 = Ok td →
  DumpJsonFile fpath data ∈ save (core (load_into w path).1) →
  export_view (core (load_into w path).1) = export_view (core w)
  ∧ ∃ hex, to_cbor_hex (transaction td) = Ok hex ∧ ("cborHex", hex) ∈ data.
Proof.
  intros Hparse Hdump.
  assert (core (load_into w path).1
          = {| parser := (parse_json path (parser (core w))).2;
               window_transaction_data := Some td;
               export_view := export_view (core w);
               era_combo := era_combo (core w);
               output_format_combo := output_format_combo (core w) |}) as Hcore.
  { unfold parse_json_file.
    destruct (parse_json path (parser (core w))) as [[td'|e] p'];
      simpl in Hparse; [injection Hparse as ->|discriminate].
    match goal with
    | |- context [view_transaction str_transaction ?l] =>
        pose proof (view_transaction_core l) as (Hc & _);
        destruct (view_transaction str_transaction l) as [viewed events]
    end.
    simpl in *. by rewrite Hc. }
  rewrite Hcore in Hdump |- *. split; [done|].
  apply save_dump_inv in Hdump as (td' & hex & Htd' & Hhex & ->).
  simpl in Htd'. injection Htd' as <-.
  exists hex. split; [done|]. unfold tx_json_of.
  apply list_elem_of_In. simpl. auto.
Qed.

(** X20. With a transaction loaded and a collection type selected, the
    window's export shows the JSON form of the export when the output
    format is JSON and its hex form otherwise, enables the save button
    and says so; when the export raises, one message starting with
    "Failed to export transaction: " is shown and the export view and the
    save button stay as they were.  The loaded transaction and the
    parser never change. *)
Theorem window_export_outcome (w : Window) (td : TransactionData)
    (ct : CollectionType) :
  window_in_sync w →
  window_transaction_data (core w) = Some td →
  CollectionType_by_name (upper (collection_combo w)) = Ok ct →
  let era :=
    if String.eqb (era_combo (core w)) "Babbage Era"
    then BABBAGE else CONWAY in
  let text :=
    if String.eqb (lower (output_format_combo (core w))) "json"
    then export_to_json str_transaction (transaction td) era ct
    else export_to_hex to_cbor (transaction td) era ct in
  window_transaction_data (core (export_from w).1) = Some td
  ∧ parser (core (export_from w).1) = parser (core w)
  ∧ match text with
    | Ok s =>
        export_view (core (export_from w).1) = s
        ∧ save_button (export_from w).1 = true
        ∧ (export_from w).2
          = [MessageInformation "Success"
               ("Transaction exported as " +:+ era_combo (core w)
                +:+ " with " +:+ collection_combo w +:+ " collections!")]
    | Raise e =>
        export_view (core (export_from w).1) = export_view (core w)
        ∧ save_button (export_from w).1 = save_button w
        ∧ (export_from w).2
          = [MessageCritical "Error"
               ("Failed to export transaction: " +:+ str_exn e)]
    end.
Proof.
  intros Hsync Htd Hct era text. subst era text.
  unfold window_in_sync in Hsync. rewrite Htd in Hsync.
  unfold window_export_transaction, window_export_attempt.
  rewrite Htd, Hct.
  unfold export_transaction, m_bind, get_exporter, m_lift, m_ret.
  rewrite <- Hsync.
  destruct (String.eqb (lower (output_format_combo (core w))) "json");
    simpl.
  - destruct (export_to_json _ _ _ _) as [s|e]; simpl; done.
  - destruct (export_to_hex _ _ _ _) as [s|e]; simpl; done.
Qed.

End WindowFacts.

Lemma babbage_default_is_mixed_witness :
  ∃ d s, export_to_era (sample_tx (Some (PyList [input_1; input_1])) None None)
           BABBAGE DEFAULT = Ok d
         ∧ export_to_era (sample_tx (Some (PyList [input_1; input_1])) None None)
             BABBAGE SET = Ok s
         ∧ get_field f_inputs d = get_field f_inputs s.
Proof.
  destruct (babbage_default_is_mixed
              (sample_tx (Some (PyList [input_1; input_1])) None None))
    as (d & l & s & Hd & _ & Hs & _ & Hset & _).
  exists d, s. split; [done|]. split; [done|].
  apply Hset. apply list_elem_of_In. simpl. auto.
Defined.

Lemma window_stays_in_sync_witness :
  window_in_sync
    (parse_json_file (λ _, false) (λ _, Ok "") (λ _, Ok JNull)
       (λ _, Ok []) (λ _, Ok (sample_tx None None None)) (λ _, Ok "tx")
       sample_synced_window "missing.json").1
  ∧ window_in_sync
      (window_export_transaction (λ _, Ok "tx") (λ _, Ok [x84])
         (λ _, "b'..'") sample_synced_window).1.
Proof.
  split.
  - apply (proj1 (proj2 (window_stays_in_sync (λ _, false) (λ _, Ok "")
                           (λ _, Ok JNull) (λ _, Ok [])
                           (λ _, Ok (sample_tx None None None)) (λ _, Ok "tx")
                           (λ _, Ok [x84]) (λ _, "b'..'")))).
    reflexivity.
  - apply (proj2 (proj2 (window_stays_in_sync (λ _, false) (λ _, Ok "")
                           (λ _, Ok JNull) (λ _, Ok [])
                           (λ _, Ok (sample_tx None None None)) (λ _, Ok "tx")
                           (λ _, Ok [x84]) (λ _, "b'..'")))).
    reflexivity.
Defined.

Lemma save_after_load_writes_loaded_witness :
  let td := {| cbor_hex := JString "84";
               transaction := sample_tx None None None |} in
  let loaded :=
    (parse_json_file (λ _, true) (λ _, Ok "{}")
       (λ _, Ok (JObject [("cborHex", JString "84")])) (λ _, Ok [x84])
       (λ _, Ok (sample_tx None None None)) (λ _, Ok "second")
       sample_synced_window "second.json").1 in
  export_view (core loaded) = "previous export"
  ∧ ∃ hex, Ok "84b1" = Ok hex
           ∧ ("cborHex", hex)
             ∈ [ ("type", "Unwitnessed Tx ConwayEra");
                 ("description", "Generated by Cardano Transaction Sanitizer");
                 ("cborHex", "84b1") ].
Proof.
  intros td loaded.
  apply (save_after_load_writes_loaded (λ _, true) (λ _, Ok "{}")
           (λ _, Ok (JObject [("cborHex", JString "84")])) (λ _, Ok [x84])
           (λ _, Ok (sample_tx None None None)) (λ _, Ok "second")
           (λ _, "out.json")
           (λ tx, match inputs (transaction_body tx) with
                  | None => Ok "84b1"
                  | Some _ => Ok "84a0"
                  end)
           (λ _ _, Ok tt)
           sample_synced_window "second.json" td "out.json").
  - reflexivity.
  - apply list_elem_of_In. left. reflexivity.
Defined.

Lemma window_export_outcome_witness :
  let w' := (window_export_transaction (λ _, Ok "tx") (λ _, Ok [x84; xa0])
               (λ _, "b'..'") sample_synced_window).1 in
  window_transaction_data (core w') = Some sample_data
  ∧ parser (core w') = parser (core sample_synced_window)
  ∧ export_view (core w') = "84a0"
  ∧ save_button w' = true.
Proof.
  intros w'.
  destruct (window_export_outcome (λ _, Ok "tx") (λ _, Ok [x84; xa0])
              (λ _, "b'..'") sample_synced_window sample_data SET)
    as (Htd & Hp & Hview & Hsave & _); [reflexivity..|].
  by split_and!.
Defined.


(** * The export with the library's keys *)

Lemma for_each_ok {A B} (step : A → Exc B) (g : A → B) (l : list A) :
  (∀ x, step x = Ok (g x)) → for_each step l = Ok (map g l).
Proof.
  intros Hstep. induction l as [|x l IH]; simpl; [done|].
  by rewrite Hstep, IH.
Qed.

Lemma for_each_elem {A B} (step : A → Exc B) (l : list A) (l' : list B)
    (x : A) (y : B) :
  for_each step l = Ok l' → x ∈ l → step x = Ok y → y ∈ l'.
Proof.
  revert l'. induction l as [|z l IH]; intros l' Hl Hx Hy.
  - by apply elem_of_nil in Hx.
  - simpl in Hl. destruct (step z) as [y'|e] eqn:Hz; [|done]. simpl in Hl.
    destruct (for_each step l) as [ys|e]; [|done]. simpl in Hl.
    injection Hl as <-. apply elem_of_cons in Hx as [->|Hx].
    + rewrite Hz in Hy. injection Hy as ->. by left.
    + right. by apply IH.
Qed.

Section KeyedFacts.
Context `{ItemKey TransactionInput} `{ItemKey VerificationKeyHash}
  `{ItemKey Certificate} `{ItemKey VerificationKeyWitness}
  `{ItemKey NativeScript} `{ItemKey BootstrapWitness}
  `{ItemKey PlutusScript} `{ItemKey PlutusData} `{ItemKey RedeemerItem}.

(** Under List nothing is serialised: pool owners become a [list]. *)
Lemma process_certificate_keyed_list cert :
  process_certificate_keyed LIST cert = Ok (process_certificate LIST cert).
Proof.
  destruct cert as [| | |[pp|]| |]; try done. simpl.
  unfold if_truthy. destruct (pool_owners pp) as [o|]; [|done].
  by destruct (truthy (Some o)).
Qed.

Lemma process_certificates_keyed_list c era :
  process_certificates_keyed c era LIST = Ok (process_certificates c era LIST).
Proof.
  unfold process_certificates_keyed, process_certificates.
  destruct (truthy (Some c)); [|done].
  by rewrite (for_each_ok _ (process_certificate LIST))
    by apply process_certificate_keyed_list.
Qed.

Lemma if_truthy_keyed_ok {A} (v : option (Coll A)) (g : Coll A → Coll A)
    (d : option (Coll A)) :
  if_truthy_keyed v (λ c, Ok (g c)) d = Ok (if_truthy v (λ c, Some (g c)) d).
Proof.
  unfold if_truthy_keyed, if_truthy. destruct v as [c|]; [|done].
  by destruct (truthy (Some c)).
Qed.

Lemma witness_set_keyed_list w :
  witness_set_with_keyed conv_list_keyed w = Ok (witness_set_with conv_list w).
Proof.
  unfold witness_set_with_keyed, witness_set_with, conv_list_keyed, conv_list.
  by rewrite !if_truthy_keyed_ok.
Qed.

(** Under List the export serialises nothing, so the keys do not
    matter. *)
Lemma export_keyed_list tx era :
  export_to_era_keyed tx era LIST = export_to_era tx era LIST.
Proof.
  destruct tx as [b w a v].
  assert (∀ e, if_truthy (certificates b)
            (λ c, processed <- process_certificates_keyed c e LIST ;;
                  Ok (Some (list_ processed)))
            (Ok None)
          = Ok (if_truthy (certificates b)
                  (λ c, Some (list_ (process_certificates c e LIST))) None))
    as Hcerts.
  { intros e. unfold if_truthy. destruct (certificates b) as [c|]; [|done].
    destruct (truthy (Some c)); [|done].
    by rewrite process_certificates_keyed_list. }
  destruct era; unfold export_to_era_keyed, export_to_era,
    _export_babbage_keyed, _export_conway_keyed, _export_babbage,
    _export_conway, _build_babbage_transaction_body_keyed,
    _build_conway_transaction_body_keyed, _build_babbage_witness_set_keyed,
    _build_conway_witness_set_keyed, _build_babbage_transaction_body,
    _build_conway_transaction_body, _build_babbage_witness_set,
    _build_conway_witness_set; cbn [is_default_or_set is_default_or_list bind
      transaction_body transaction_witness_set auxiliary_data valid];
    rewrite Hcerts, witness_set_keyed_list; reflexivity.
Qed.
End KeyedFacts.

Lemma extend_keyed_raises {A} `{ItemKey A} (l : list A) (x : A) (e : exn) :
  x ∈ l → item_key x = Raise e →
  ∀ acc seen, ∃ e', extend_keyed acc seen l = Raise e'.
Proof.
  intros Hx He. induction l as [|y l IH]; intros acc seen.
  - by apply elem_of_nil in Hx.
  - simpl. apply elem_of_cons in Hx as [<-|Hx].
    + rewrite He. by exists e.
    + destruct (item_key y) as [k|e']; [|by exists e'].
      destruct (decide (k ∈ seen)); by apply IH.
Qed.

Section KeyedCertificates.
Context `{ItemKey TransactionInput} `{ItemKey VerificationKeyHash}
  `{ItemKey Certificate} `{ItemKey VerificationKeyWitness}
  `{ItemKey NativeScript} `{ItemKey BootstrapWitness}
  `{ItemKey PlutusScript} `{ItemKey PlutusData} `{ItemKey RedeemerItem}.

(** Building a non-empty ordered set of the processed certificates
    raises when a certificate without pool parameters is among them and
    cannot be serialised. *)
Lemma keyed_certificates_raise c era ct e :
  PoolRegistration None ∈ items c →
  item_key (PoolRegistration None) = Raise e →
  ∃ e', (processed <- process_certificates_keyed c era ct ;;
         s <- NonEmptyOrderedSet_keyed processed ;; Ok (Some s))
        = Raise e'.
Proof.
  intros Hin He. unfold process_certificates_keyed.
  assert (truthy (Some c) = true) as ->.
  { simpl. destruct (items c); [by apply elem_of_nil in Hin | done]. }
  destruct (for_each (process_certificate_keyed ct) (items c))
    as [l|e'] eqn:Hl; simpl; [|by exists e'].
  assert (PoolRegistration None ∈ l) as Hin'
    by (by eapply for_each_elem).
  unfold NonEmptyOrderedSet_keyed. simpl.
  destruct (extend_keyed_raises l _ e Hin' He [] []) as [e' ->].
  by exists e'.
Qed.

(** C4, amended. With collection type List, for either era and whatever
    the library can or cannot serialise, exporting a transaction that
    holds a pool-registration certificate without pool parameters raises
    nothing, [StructuralError] or other: the export returns, the
    certificate is among the exported certificates as it was, and the
    exported certificates are the source certificates, each processed,
    in order. *)
Theorem C4_list_passes_no_pool_params_through (tx : Transaction) (era : Era)
    (c : Coll Certificate) :
  certificates (transaction_body tx) = Some c →
  PoolRegistration None ∈ items c →
  ∃ tx', export_to_era_keyed tx era LIST = Ok tx'
         ∧ certificates (transaction_body tx')
           = Some (PyList (map (process_certificate LIST) (items c)))
         ∧ PoolRegistration None ∈ map (process_certificate LIST) (items c).
Proof.
  intros Hc Hin. rewrite export_keyed_list, export_to_era_returns.
  exists (exported tx era LIST). split; [done|].
  assert (truthy (Some c) = true) as Ht.
  { simpl. destruct (items c); [by apply elem_of_nil in Hin | done]. }
  split.
  - pose proof (export_field_truthy tx era LIST f_certificates c Hc Ht) as Hexp.
    by destruct era.
  - apply elem_of_map. by exists (PoolRegistration None).
Qed.

(** X22. When the library cannot serialise a pool registration without
    pool parameters, a transaction holding one is not exported with
    collection type Set, nor to Conway with the default collection
    type: wherever the certificates are made a non-empty ordered set
    the export raises instead of returning. *)
Theorem keyed_sets_raise_on_no_pool_params (tx : Transaction) (era : Era)
    (ct : CollectionType) (c : Coll Certificate) (e : exn) :
  item_key (PoolRegistration None) = Raise e →
  certificates (transaction_body tx) = Some c →
  PoolRegistration None ∈ items c →
  ct = SET ∨ (era = CONWAY ∧ ct = DEFAULT) →
  ∃ e', export_to_era_keyed tx era ct = Raise e'.
Proof.
  intros He Hc Hin Hct.
  assert (truthy (Some c) = true) as Ht.
  { simpl. destruct (items c); [by apply elem_of_nil in Hin | done]. }
  assert (∀ era0 ct0, ∃ e',
            (processed <- process_certificates_keyed c era0 ct0 ;;
             s <- NonEmptyOrderedSet_keyed processed ;; Ok (Some s))
            = Raise e') as Hraise.
  { intros era0 ct0. by apply (keyed_certificates_raise c era0 ct0 e). }
  destruct tx as [b w a v]. simpl in Hc.
  assert ((era = BABBAGE ∧ ct = SET) ∨ (era = CONWAY ∧ ct = SET)
          ∨ (era = CONWAY ∧ ct = DEFAULT)) as Hcase.
  { destruct Hct as [->|[-> ->]]; [destruct era|]; auto. }
  destruct Hcase as [[-> ->]|[[-> ->]|[-> ->]]];
    unfold export_to_era_keyed, _export_babbage_keyed, _export_conway_keyed,
      _build_babbage_transaction_body_keyed,
      _build_conway_transaction_body_keyed;
    cbn [is_default_or_set is_default_or_list transaction_body];
    match goal with
    | |- context [bind (bind ?fields _) _] =>
        destruct fields as [[[[i co] rs] ri]|e0]; [|by exists e0]
    end;
    cbn [bind]; rewrite Hc; unfold if_truthy; rewrite Ht;
    destruct (Hraise BABBAGE SET) as [e1 Hr1];
    destruct (Hraise CONWAY SET) as [e2 Hr2];
    destruct (Hraise CONWAY DEFAULT) as [e3 Hr3];
    rewrite ?Hr1, ?Hr2, ?Hr3; simpl; by eexists.
Qed.
End KeyedCertificates.

(** C4 as stated fails: with collection type List the export of a
    transaction holding a pool registration without pool parameters
    returns, the certificate in it, although the library cannot
    serialise that certificate. *)
Lemma C4_list_returns_counterexample :
  sample_export_keyed
    (sample_tx None (Some (PyList [PoolRegistration None])) None)
    CONWAY LIST
  = Ok (sample_tx (Some (PyList []))
          (Some (PyList [PoolRegistration None])) None)
  ∧ ¬ ∃ e, sample_export_keyed
             (sample_tx None (Some (PyList [PoolRegistration None])) None)
             CONWAY LIST = Raise e.
Proof. split; [reflexivity|]. intros [e He]. discriminate He. Qed.

Lemma C4_list_passes_no_pool_params_through_witness :
  ∃ tx',
    sample_export_keyed
      (sample_tx None
         (Some (PyList [StakeRegistration [x01]; PoolRegistration None])) None)
      BABBAGE LIST = Ok tx'
    ∧ certificates (transaction_body tx')
      = Some (PyList [StakeRegistration [x01]; PoolRegistration None])
    ∧ PoolRegistration None
      ∈ [StakeRegistration [x01]; PoolRegistration None].
Proof.
  apply (@C4_list_passes_no_pool_params_through
           (λ x, Ok (transaction_id x)) (λ x, Ok (vkh_payload x))
           sample_certificate_key (λ x, Ok (vkey x))
           (λ x, Ok (native_script_cbor x)) (λ x, Ok (bootstrap_cbor x))
           (λ x, Ok (script_bytes x)) (λ x, Ok (datum_cbor x)) (λ _, Ok [])
           (sample_tx None
              (Some (PyList [StakeRegistration [x01]; PoolRegistration None]))
              None)
           BABBAGE
           (PyList [StakeRegistration [x01]; PoolRegistration None])).
  - reflexivity.
  - apply list_elem_of_In. simpl. right. by left.
Defined.

Lemma keyed_sets_raise_on_no_pool_params_witness :
  ∃ e', sample_export_keyed
          (sample_tx None
             (Some (PyList [StakeRegistration [x01]; PoolRegistration None]))
             None)
          CONWAY DEFAULT = Raise e'.
Proof.
  apply (@keyed_sets_raise_on_no_pool_params
           (λ x, Ok (transaction_id x)) (λ x, Ok (vkh_payload x))
           sample_certificate_key (λ x, Ok (vkey x))
           (λ x, Ok (native_script_cbor x)) (λ x, Ok (bootstrap_cbor x))
           (λ x, Ok (script_bytes x)) (λ x, Ok (datum_cbor x)) (λ _, Ok [])
           (sample_tx None
              (Some (PyList [StakeRegistration [x01]; PoolRegistration None]))
              None)
           CONWAY DEFAULT
           (PyList [StakeRegistration [x01]; PoolRegistration None])
           (TypeError "'NoneType' object is not iterable")).
  - reflexivity.
  - reflexivity.
  - apply list_elem_of_In. simpl. right. by left.
  - right. by split.
Defined.

Example keyed_set_export_raises :
  sample_export_keyed
    (sample_tx None (Some (PyList [PoolRegistration None])) None)
    BABBAGE SET
  = Raise (TypeError "'NoneType' object is not iterable").
Proof. reflexivity. Qed.

(** ** The two exports agree where the library can serialise *)

Lemma for_each_ok_in {A B} (step : A → Exc B) (g : A → B) (l : list A) :
  (∀ x, x ∈ l → step x = Ok (g x)) → for_each step l = Ok (map g l).
Proof.
  induction l as [|x l IH]; intros Hstep; simpl; [done|].
  rewrite Hstep by (by left). rewrite IH; [done|].
  intros y Hy. apply Hstep. by right.
Qed.

Section KeyedDistinct.
Context {A : Type} `{EqDecision A} `{ItemKey A}.

Lemma keys_distinct_nil : keys_distinct (A := A) [].
Proof.
  exists (λ _, []). split; [intros x Hx | intros x y Hx];
    by apply elem_of_nil in Hx.
Qed.

Lemma extend_keyed_distinct (code : A → bytes) (l0 : list A) :
  (∀ x, x ∈ l0 → item_key x = Ok (code x)) →
  (∀ x y, x ∈ l0 → y ∈ l0 → code x = code y → x = y) →
  ∀ l acc, (∀ x, x ∈ acc ++ l → x ∈ l0) →
           extend_keyed acc (map code acc) l = Ok (extend acc l).
Proof.
  intros Hkey Hinj. induction l as [|x l IH]; intros acc Hsub; [done|].
  assert (x ∈ l0) as Hx.
  { apply Hsub, elem_of_app. right. by left. }
  cbn [extend_keyed extend]. rewrite (Hkey x Hx). unfold append.
  destruct (decide (x ∈ acc)) as [Hin|Hin].
  - rewrite decide_True by (apply elem_of_map; by exists x).
    apply IH. intros y Hy. apply Hsub. apply elem_of_app in Hy as [Hy|Hy];
      apply elem_of_app; [by left | right; by right].
  - rewrite decide_False.
    + replace (map code acc ++ [code x]) with (map code (acc ++ [x]))
        by (by rewrite List.map_app).
      apply IH. intros y Hy. apply Hsub.
      rewrite <- app_assoc in Hy. exact Hy.
    + intros Hc. apply elem_of_map in Hc as (y & Hy & Heq). apply Hin.
      assert (y ∈ l0) as Hy0 by (apply Hsub, elem_of_app; by left).
      by rewrite (Hinj x y Hx Hy0 Heq).
Qed.

Lemma OrderedSet_keyed_distinct (c : Coll A) :
  keys_distinct (items c) → OrderedSet_keyed c = Ok (OrderedSet c).
Proof.
  intros (code & Hkey & Hinj). unfold OrderedSet_keyed, OrderedSet.
  pose proof (extend_keyed_distinct code (items c) Hkey Hinj (items c) []
                (λ x Hx, Hx)) as Hext.
  simpl in Hext. by rewrite Hext.
Qed.

Lemma NonEmptyOrderedSet_keyed_distinct (c : Coll A) :
  keys_distinct (items c) →
  NonEmptyOrderedSet_keyed c = Ok (NonEmptyOrderedSet c).
Proof.
  intros (code & Hkey & Hinj).
  unfold NonEmptyOrderedSet_keyed, NonEmptyOrderedSet.
  pose proof (extend_keyed_distinct code (items c) Hkey Hinj (items c) []
                (λ x Hx, Hx)) as Hext.
  simpl in Hext. by rewrite Hext.
Qed.

Lemma if_truthy_keyed_set (v d : option (Coll A)) :
  keys_distinct (items_of v) →
  if_truthy_keyed v OrderedSet_keyed d
  = Ok (if_truthy v (λ c, Some (OrderedSet c)) d).
Proof.
  intros Hk. unfold if_truthy_keyed, if_truthy. destruct v as [c|]; [|done].
  destruct (truthy (Some c)); [|done].
  by rewrite OrderedSet_keyed_distinct.
Qed.

Lemma if_truthy_keyed_nonempty_set (v d : option (Coll A)) :
  keys_distinct (items_of v) →
  if_truthy_keyed v NonEmptyOrderedSet_keyed d
  = Ok (if_truthy v (λ c, Some (NonEmptyOrderedSet c)) d).
Proof.
  intros Hk. unfold if_truthy_keyed, if_truthy. destruct v as [c|]; [|done].
  destruct (truthy (Some c)); [|done].
  by rewrite NonEmptyOrderedSet_keyed_distinct.
Qed.
End KeyedDistinct.

Section KeyedAgreement.
Context `{ItemKey TransactionInput} `{ItemKey VerificationKeyHash}
  `{ItemKey Certificate} `{ItemKey VerificationKeyWitness}
  `{ItemKey NativeScript} `{ItemKey BootstrapWitness}
  `{ItemKey PlutusScript} `{ItemKey PlutusData} `{ItemKey RedeemerItem}.

Lemma process_certificate_keyed_ok ct cert :
  (∀ pp owners, cert = PoolRegistration (Some pp) →
                pool_owners pp = Some owners → keys_distinct (items owners)) →
  process_certificate_keyed ct cert = Ok (process_certificate ct cert).
Proof.
  intros Ho. destruct cert as [| | |[pp|]| |]; try done. simpl.
  unfold if_truthy. destruct (pool_owners pp) as [o|] eqn:Hpo; [|done].
  destruct (truthy (Some o)); [|done].
  destruct ct; simpl; try done;
    by rewrite (OrderedSet_keyed_distinct o) by (by eapply Ho).
Qed.

Lemma process_certificates_keyed_ok c era ct :
  (∀ pp owners, PoolRegistration (Some pp) ∈ items c →
                pool_owners pp = Some owners → keys_distinct (items owners)) →
  process_certificates_keyed c era ct = Ok (process_certificates c era ct).
Proof.
  intros Ho. unfold process_certificates_keyed, process_certificates.
  destruct (truthy (Some c)); [|done].
  rewrite (for_each_ok_in _ (process_certificate ct)); [done|].
  intros cert Hcert. apply process_certificate_keyed_ok.
  intros pp owners ->. by apply Ho.
Qed.

Lemma witness_set_keyed_nonempty_sets w :
  keys_distinct (items_of (vkey_witnesses w)) →
  keys_distinct (items_of (native_scripts w)) →
  keys_distinct (items_of (bootstrap_witness w)) →
  keys_distinct (items_of (plutus_v1_script w)) →
  keys_distinct (items_of (plutus_v2_script w)) →
  keys_distinct (items_of (plutus_v3_script w)) →
  keys_distinct (items_of (plutus_data w)) →
  keys_distinct (items_of (redeemer w)) →
  witness_set_with_keyed conv_nonempty_set_keyed w
  = Ok (witness_set_with conv_nonempty_set w).
Proof.
  intros. unfold witness_set_with_keyed, witness_set_with,
    conv_nonempty_set_keyed, conv_nonempty_set.
  by rewrite !if_truthy_keyed_nonempty_set.
Qed.

(** X23. Where the library can serialise every item of a transaction,
    different items to different keys, the export that follows the
    library's keys returns exactly what the export that compares items
    returns; so everything proved of the latter holds of the former on
    such transactions. *)
Theorem keyed_export_agrees (tx : Transaction) (era : Era)
    (ct : CollectionType) :
  well_keyed tx ct →
  export_to_era_keyed tx era ct = export_to_era tx era ct.
Proof.
  intros [Hk Ho]. destruct ct; [| apply export_keyed_list |].
  all: destruct tx as [b w a v].
  all: pose proof (Hk f_inputs) as Hi; pose proof (Hk f_collateral) as Hco;
    pose proof (Hk f_required_signers) as Hrs;
    pose proof (Hk f_reference_inputs) as Hri;
    pose proof (Hk f_certificates) as Hce.
  all: assert (witness_set_with_keyed conv_nonempty_set_keyed w
               = Ok (witness_set_with conv_nonempty_set w)) as Hw
    by (apply witness_set_keyed_nonempty_sets;
        [apply (Hk f_vkey_witnesses) | apply (Hk f_native_scripts)
        | apply (Hk f_bootstrap_witness) | apply (Hk f_plutus_v1_script)
        | apply (Hk f_plutus_v2_script) | apply (Hk f_plutus_v3_script)
        | apply (Hk f_plutus_data) | apply (Hk f_redeemer)]).
  all: destruct era.
  all: unfold export_to_era_keyed, export_to_era,
    _export_babbage_keyed, _export_conway_keyed, _export_babbage,
    _export_conway, _build_babbage_transaction_body_keyed,
    _build_conway_transaction_body_keyed, _build_babbage_witness_set_keyed,
    _build_conway_witness_set_keyed, _build_babbage_transaction_body,
    _build_conway_transaction_body, _build_babbage_witness_set,
    _build_conway_witness_set;
    cbn [is_default_or_set is_default_or_list
      transaction_body transaction_witness_set auxiliary_data valid].
  all: rewrite (if_truthy_keyed_set (inputs b)) by exact Hi;
    rewrite (if_truthy_keyed_nonempty_set (collateral b)) by exact Hco;
    rewrite (if_truthy_keyed_nonempty_set (required_signers b)) by exact Hrs;
    rewrite (if_truthy_keyed_nonempty_set (reference_inputs b)) by exact Hri;
    cbn [bind].
  all: rewrite ?Hw, ?witness_set_keyed_list.
  all: unfold field_items in Hce, Ho; simpl in Hce, Ho;
    unfold if_truthy; destruct (certificates b) as [c|]; [|done];
    destruct (truthy (Some c)) eqn:Ht; [|done];
    rewrite (process_certificates_keyed_ok c) by exact Ho;
    cbn [bind]; try done.
  all: unfold process_certificates in *; rewrite Ht in *;
    rewrite (NonEmptyOrderedSet_keyed_distinct
               (PyList (map (process_certificate _) (items c))))
      by exact Hce; done.
Qed.
End KeyedAgreement.

Lemma keyed_export_agrees_witness :
  sample_export_keyed
    (sample_tx (Some (PyList [input_1; input_1]))
       (Some (PyList [StakeRegistration [x01]])) None)
    CONWAY DEFAULT
  = export_to_era
      (sample_tx (Some (PyList [input_1; input_1]))
         (Some (PyList [StakeRegistration [x01]])) None)
      CONWAY DEFAULT.
Proof.
  apply (@keyed_export_agrees
           (λ x, Ok (transaction_id x)) (λ x, Ok (vkh_payload x))
           sample_certificate_key (λ x, Ok (vkey x))
           (λ x, Ok (native_script_cbor x)) (λ x, Ok (bootstrap_cbor x))
           (λ x, Ok (script_bytes x)) (λ x, Ok (datum_cbor x)) (λ _, Ok [])).
  split.
  - intros f. destruct f; try apply keys_distinct_nil.
    + exists transaction_id. split; [done|].
      intros x y Hx Hy _. apply list_elem_of_In in Hx, Hy. simpl in Hx, Hy.
      destruct Hx as [<-|[<-|[]]], Hy as [<-|[<-|[]]]; reflexivity.
    + exists (λ _, [x00; x01]). split.
      * intros x Hx. apply list_elem_of_singleton in Hx. by subst.
      * intros x y Hx Hy _. apply list_elem_of_singleton in Hx, Hy.
        by subst.
  - intros pp owners Hin. apply list_elem_of_singleton in Hin.
    discriminate Hin.
Defined.

(** ** Redeemers held as a map *)

(** X24. When the redeemers of the source are a map, the export carries
    its keys only: the exported redeemers are a [list] or a non-empty
    ordered set of the keys, never a map, and two transactions that
    differ only in the values of the map (the data and the execution
    units) have the same export. *)
Theorem redeemer_map_exports_keys_only (b : TransactionBody)
    (w : TransactionWitnessSet) (a : option AuxiliaryData) (v : bool)
    (era : Era) (ct : CollectionType)
    (e1 e2 : list (RedeemerItem * bytes)) :
  e1 ≠ [] →
  map fst e1 = map fst e2 →
  let tx1 := {| transaction_body := b;
                transaction_witness_set := with_redeemer w (Some (PyDictOf e1));
                auxiliary_data := a; valid := v |} in
  let tx2 := {| transaction_body := b;
                transaction_witness_set := with_redeemer w (Some (PyDictOf e2));
                auxiliary_data := a; valid := v |} in
  export_to_era tx1 era ct = export_to_era tx2 era ct
  ∧ ∃ tx', export_to_era tx1 era ct = Ok tx'
           ∧ (redeemer (transaction_witness_set tx')
              = Some (PyList (map fst e1))
              ∨ redeemer (transaction_witness_set tx')
                = Some (NonEmptyOrderedSetOf (extend [] (map fst e1)))).
Proof.
  intros Hne Hkeys tx1 tx2. subst tx1 tx2.
  assert (truthy (Some (PyDictOf e1)) = true) as Ht1.
  { simpl. destruct e1; [done|]. done. }
  assert (truthy (Some (PyDictOf e2)) = true) as Ht2.
  { simpl. rewrite <- Hkeys. destruct e1; [done|]. done. }
  split.
  - destruct era, ct; unfold export_to_era, _export_babbage, _export_conway,
      _build_babbage_witness_set, _build_conway_witness_set, witness_set_with,
      conv_list, conv_nonempty_set, with_redeemer, NonEmptyOrderedSet, list_;
      cbn [is_default_or_list is_default_or_set transaction_witness_set
           redeemer vkey_witnesses native_scripts bootstrap_witness
           plutus_v1_script plutus_v2_script plutus_v3_script plutus_data
           transaction_body auxiliary_data valid];
      rewrite !(if_truthy_true (PyDictOf e1)), !(if_truthy_true (PyDictOf e2))
        by done;
      cbn [items]; by rewrite Hkeys.
  - exists (exported
              {| transaction_body := b;
                 transaction_witness_set :=
                   with_redeemer w (Some (PyDictOf e1));
                 auxiliary_data := a; valid := v |} era ct).
    split; [apply export_to_era_returns|].
    destruct era, ct; unfold exported, _export_babbage, _export_conway,
      _build_babbage_witness_set, _build_conway_witness_set, witness_set_with,
      conv_list, conv_nonempty_set, with_redeemer, NonEmptyOrderedSet, list_;
      cbn [is_default_or_list is_default_or_set transaction_witness_set
           redeemer];
      rewrite (if_truthy_true (PyDictOf e1)) by done; cbn [items]; auto.
Qed.

Lemma redeemer_map_exports_keys_only_witness :
  export_to_era
    {| transaction_body := sample_body None None;
       transaction_witness_set :=
         with_redeemer (sample_witness_set None)
           (Some (sample_redeemer_map [x01]));
       auxiliary_data := None; valid := true |}
    CONWAY LIST
  = export_to_era
      {| transaction_body := sample_body None None;
         transaction_witness_set :=
           with_redeemer (sample_witness_set None)
             (Some (sample_redeemer_map [x02]));
         auxiliary_data := None; valid := true |}
      CONWAY LIST.
Proof.
  apply (redeemer_map_exports_keys_only (sample_body None None)
           (sample_witness_set None) None true CONWAY LIST
           [(spend_0, [x01])] [(spend_0, [x02])]).
  - discriminate.
  - reflexivity.
Defined.

Example redeemer_map_under_list :
  export_to_era
    {| transaction_body := sample_body None None;
       transaction_witness_set :=
         with_redeemer (sample_witness_set None)
           (Some (sample_redeemer_map [x01]));
       auxiliary_data := None; valid := true |}
    BABBAGE LIST
  = Ok {| transaction_body := sample_body None None;
          transaction_witness_set :=
            with_redeemer (sample_witness_set None) (Some (PyList [spend_0]));
          auxiliary_data := None; valid := true |}.
Proof. reflexivity. Qed.
